(** * Center-pivot MQTT device simulator: protocol engine

    A shallow embedding of [simulator/pivot_device_sim.py] (class [PivotSim])
    and the properties of its command/acknowledgment protocol.

    Conventions of the embedding.
    - A Python [str] is a Rocq [string] holding the UTF-8 text; a [bytes]
      payload is a [string] of raw bytes.
    - A value produced by [json.loads] is a [json] tree; a dict keeps its
      items as an association list.
    - The broker client (paho) is an external collaborator: every call made
      on it is recorded as an [event] of the [world]'s log and returns.
    - [print] and [jprint] are diagnostics and are not recorded.
    - Seconds and probabilities are rationals; [random.random()] reads the
      next value of the world's stream of draws.
    - A Python exception is the [Raised] outcome of a computation. *)

From Stdlib Require Import String Ascii List ZArith QArith Qround Bool Lia.
From Stdlib Require DecimalString.
From Stdlib Require Import Lqa Finite.
Import ListNotations.

Local Open Scope string_scope.
Local Open Scope Z_scope.

Set Warnings "-register-all".

(** ** JSON values, as [json.loads] builds them *)

Inductive json : Type :=
| JNull
| JBool (b : bool)
| JInt (z : Z)
| JFloat (m e : Z)
| JNaN
| JInf (neg : bool)
| JStr (s : string)
| JArr (xs : list json)
| JObj (kvs : list (string * json)).

(** A float literal is carried as [m * 10^e], the decimal number written in
    the text.  Python rounds it to the nearest binary64 (ties to even), so it
    is [0.0] exactly when its magnitude is at most [2^-1075]. *)
Definition float_is_zero (m e : Z) : bool :=
  if m =? 0 then true
  else if 0 <=? e then false
  else Z.abs m * 2 ^ 1075 <=? 10 ^ (- e).

(** Python truth value of a JSON value ([bool(v)]). *)
Definition truthy (v : json) : bool :=
  match v with
  | JNull => false
  | JBool b => b
  | JInt z => negb (z =? 0)
  | JFloat m e => negb (float_is_zero m e)
  | JNaN => true
  | JInf _ => true
  | JStr s => negb (s =? "")%string
  | JArr xs => match xs with [] => false | _ :: _ => true end
  | JObj kvs => match kvs with [] => false | _ :: _ => true end
  end.

(** [v or d]. *)
Definition py_or (v d : json) : json := if truthy v then v else d.

(** [v == s] for a str [s]: only an equal str compares equal. *)
Definition eq_str (v : json) (s : string) : bool :=
  match v with
  | JStr t => (t =? s)%string
  | _ => false
  end.

Definition is_str (v : json) : bool :=
  match v with JStr _ => true | _ => false end.

(** [type(v).__name__], for the text of an AttributeError. *)
Definition type_name (v : json) : string :=
  match v with
  | JNull => "NoneType"
  | JBool _ => "bool"
  | JInt _ => "int"
  | JFloat _ _ | JNaN | JInf _ => "float"
  | JStr _ => "str"
  | JArr _ => "list"
  | JObj _ => "dict"
  end.

Fixpoint lookup (k : string) (kvs : list (string * json)) : option json :=
  match kvs with
  | [] => None
  | (k', v) :: rest => if (k' =? k)%string then Some v else lookup k rest
  end.

(** ** The Python runtime the simulator calls into

    [bytes.decode], [json.loads] and the Unicode-aware [str] methods are
    library code; the simulator is verified against this interface, and
    [ascii_runtime] below is a reference implementation used to evaluate the
    simulator on concrete messages. *)

Class PyRuntime : Type := {
  (* payload.decode(utf-8, errors=replace) *)
  bytes_decode : string -> string;
  (* json.loads(text); None when it raises *)
  json_loads : string -> option json;
  str_upper : string -> string;
  str_lower : string -> string;
  str_strip : string -> string;
  bytes_decode_empty : bytes_decode "" = "";
  json_loads_empty_object : json_loads "{}" = Some (JObj []);
  str_upper_empty : forall s, str_upper s = "" <-> s = "";
  str_strip_empty : str_strip "" = ""
}.

(** ** Worlds, events and computations *)

Inductive exn : Type :=
| AttributeError (type attr : string).

Inductive event : Type :=
| EClientNew (cid : string) (clean_session : bool)
| EUserPw (user password : string)
| EWillSet (topic : string) (obj : json) (qos : Z) (retain : bool)
| ETlsSet (ca_certs : string)
| ETlsSetContext
| EConnect (host : string) (port keepalive : Z)
| ELoopStart
| EPublish (topic : string) (obj : json) (qos : Z) (retain : bool)
| ESubscribe (topic : string) (qos : Z)
| ESleep (secs : Q)
| ELoopStop
| EDisconnect.

Record world : Type := mkWorld {
  client : option string;   (* self.client: None, or the client with its id *)
  draws : nat -> Q;         (* the values random.random() will return *)
  cursor : nat;             (* how many of them were consumed *)
  log : list event          (* calls made so far, oldest first *)
}.

Inductive outcome (A : Type) : Type :=
| Done (a : A)
| Raised (e : exn).
Arguments Done {A} a.
Arguments Raised {A} e.

Definition M (A : Type) : Type := world -> outcome A * world.

Definition ret {A} (a : A) : M A := fun w => (Done a, w).

Definition raise {A} (e : exn) : M A := fun w => (Raised e, w).

Definition bind {A B} (m : M A) (k : A -> M B) : M B :=
  fun w =>
    match m w with
    | (Done a, w') => k a w'
    | (Raised e, w') => (Raised e, w')
    end.

Notation "x <- m ;; k" := (bind m (fun x => k))
  (at level 61, m at next level, right associativity).
Notation "m ;;; k" := (bind m (fun _ => k))
  (at level 61, right associativity).

(** The world after [n] more draws and the calls [es]. *)
Definition advance (n : nat) (es : list event) (w : world) : world :=
  mkWorld (client w) (draws w) (cursor w + n) (log w ++ es).

Definition emit (e : event) : M unit := fun w => (Done tt, advance 0 [e] w).

Definition random_random : M Q :=
  fun w => (Done (draws w (cursor w)), advance 1 [] w).

Definition time_sleep (secs : Q) : M unit := emit (ESleep secs).

(** ** Python built-ins used by the simulator *)

Definition Qltb (x y : Q) : bool := negb (Qle_bool y x).

(** [max(a, b)] and [min(a, b)]: the first argument unless the second is
    strictly greater (smaller). *)
Definition py_max (a b : Q) : Q := if Qltb a b then b else a.
Definition py_min (a b : Q) : Q := if Qltb b a then b else a.

(** [random.uniform(a, b)]. *)
Definition random_uniform (a b : Q) : M Q :=
  u <- random_random ;; ret (a + (b - a) * u)%Q.

(** [random.randint(a, b)], read off a unit draw. *)
Definition random_randint (a b : Z) : M Z :=
  u <- random_random ;; ret (a + Qfloor (u * inject_Z (b - a + 1))).

Definition str_of_Z (z : Z) : string :=
  DecimalString.NilZero.string_of_int (Z.to_int z).

(** [d.get(key, default)]; only a dict has the method. *)
Definition dict_get (d : json) (key : string) (default : json) : M json :=
  match d with
  | JObj kvs =>
      ret (match lookup key kvs with Some v => v | None => default end)
  | _ => raise (AttributeError (type_name d) "get")
  end.

(** [v.meth()] for a [str] method [meth]; only a str has it. *)
Definition str_method (name : string) (f : string -> string) (v : json)
  : M string :=
  match v with
  | JStr s => ret (f s)
  | _ => raise (AttributeError (type_name v) name)
  end.

(** ** PivotSim *)

Record Args : Type := mkArgs {
  host : string;
  port : Z;
  farm_id : string;
  user : string;
  password : string;
  latency : Q;
  random_lag : Q;
  drop_rate : Q;
  motor_fail : bool;
  cafile : option string;
  client_id : option string
}.

Definition newline : string := String (ascii_of_nat 10) "".

Section Simulator.

Context {R : PyRuntime}.
Variable args : Args.

Definition farm : string := farm_id args.

Definition t_status : string := "farm/" ++ farm ++ "/status".
Definition t_dev_status : string := "farm/" ++ farm ++ "/device/status".
Definition t_control : string := "farm/" ++ farm ++ "/control".
Definition t_device : string := "farm/" ++ farm ++ "/device".
Definition t_motor_ctrl : string := "farm/" ++ farm ++ "/motor/+/control".
Definition t_ack : string := "farm/" ++ farm ++ "/ack".
Definition t_err : string := "farm/" ++ farm ++ "/err".

Definition t_motor_ack (motor_id : string) : string :=
  "farm/" ++ farm ++ "/motor/" ++ motor_id ++ "/ack".
Definition t_motor_err (motor_id : string) : string :=
  "farm/" ++ farm ++ "/motor/" ++ motor_id ++ "/err".

(** [self.re_motor.match(topic)]: the pattern
    [^farm/<farm, escaped>/motor/([^/]+)/control$].  The result is group 1.
    Python's [$] also matches just before a newline that ends the string. *)
Fixpoint strip_prefix (p s : string) : option string :=
  match p with
  | EmptyString => Some s
  | String a p' =>
      match s with
      | EmptyString => None
      | String b s' => if Ascii.eqb a b then strip_prefix p' s' else None
      end
  end.

Fixpoint span_segment (s : string) : string * string :=
  match s with
  | EmptyString => (EmptyString, EmptyString)
  | String c s' =>
      if Ascii.eqb c "/"%char then (EmptyString, s)
      else let (seg, rest) := span_segment s' in (String c seg, rest)
  end.

Definition re_motor_match (topic : string) : option string :=
  match strip_prefix ("farm/" ++ farm ++ "/motor/") topic with
  | None => None
  | Some r =>
      let (seg, rest) := span_segment r in
      if (seg =? "")%string then None
      else if (rest =? "/control")%string
              || (rest =? "/control" ++ newline)%string
           then Some seg
           else None
  end.

(** *** MQTT lifecycle *)

Definition truthy_opt (o : option string) : bool :=
  match o with
  | Some s => negb (s =? "")%string
  | None => false
  end.

Definition offline : json := JObj [("message", JStr "Offline")].
Definition online : json := JObj [("message", JStr "Online")].
Definition running : json := JObj [("message", JStr "Running")].

Definition new_client (cid : string) : M unit :=
  fun w =>
    (Done tt, mkWorld (Some cid) (draws w) (cursor w)
                      (log w ++ [EClientNew cid true])).

Definition connect : M unit :=
  cid <- (match client_id args with
          | Some c =>
              if truthy_opt (Some c) then ret c
              else n <- random_randint 1000 999999 ;;
                   ret ("device_sim_" ++ str_of_Z n)
          | None => n <- random_randint 1000 999999 ;;
                    ret ("device_sim_" ++ str_of_Z n)
          end) ;;
  new_client cid ;;;
  emit (EUserPw (user args) (password args)) ;;;
  emit (EWillSet t_status offline 1 true) ;;;
  (match cafile args with
   | Some f => if truthy_opt (Some f) then emit (ETlsSet f)
               else emit ETlsSetContext
   | None => emit ETlsSetContext
   end) ;;;
  emit (EConnect (host args) (port args) 30) ;;;
  emit ELoopStart.

(** [self.publish(topic, obj, qos, retain)]: [self.client.publish] of the
    compact [json.dumps] of [obj]. *)
Definition publish (topic : string) (obj : json) (qos : Z) (retain : bool)
  : M unit :=
  fun w =>
    match client w with
    | Some _ => emit (EPublish topic obj qos retain) w
    | None => raise (AttributeError "NoneType" "publish") w
    end.

Fixpoint subscribe_each (subs : list (string * Z)) : M unit :=
  match subs with
  | [] => ret tt
  | (t, q) :: rest => emit (ESubscribe t q) ;;; subscribe_each rest
  end.

Definition on_connect (rc : Z) : M unit :=
  if rc =? 0 then
    publish t_status online 1 true ;;;
    publish t_dev_status running 0 false ;;;
    subscribe_each [(t_control, 0); (t_device, 0); (t_motor_ctrl, 0)]
  else ret tt.

Definition on_disconnect (rc : Z) : M unit := ret tt.

(** *** Simulated processing *)

Definition sleep_latency : M unit :=
  let base := py_max 0 (latency args) in
  jitter <- random_uniform 0 (py_max 0 (random_lag args)) ;;
  time_sleep (base + jitter)%Q.

Definition drop_threshold : Q := py_max 0 (py_min 1 (drop_rate args)).

Definition maybe_drop : M bool :=
  u <- random_random ;; ret (Qltb u drop_threshold).

(** *** Command handlers *)

Definition ack_obj (corr : json) (note : string) : json :=
  JObj [("corr", corr); ("ok", JBool true); ("note", JStr note)].

Definition err_obj (corr : json) (reason : string) : json :=
  JObj [("corr", corr); ("ok", JBool false); ("reason", JStr reason)].

Definition handle_pivot_cmd (d : json) : M unit :=
  c <- dict_get d "corr" JNull ;;
  let corr := py_or c (JStr "") in
  dropped <- maybe_drop ;;
  if dropped then ret tt
  else
    sleep_latency ;;;
    run <- dict_get d "run" (JStr "") ;;
    low <- str_method "lower" str_lower run ;;
    let note := "pivot " ++ low ++ " accepted" in
    publish t_ack (ack_obj corr note) 0 false.

Definition handle_device_cmd (d : json) : M unit :=
  c <- dict_get d "corr" JNull ;;
  let corr := py_or c (JStr "") in
  a <- dict_get d "action" JNull ;;
  action <- str_method "upper" str_upper (py_or a (JStr "")) ;;
  s <- dict_get d "serial" JNull ;;
  serial <- str_method "strip" str_strip (py_or s (JStr "")) ;;
  dropped <- maybe_drop ;;
  if dropped then ret tt
  else
    sleep_latency ;;;
    if (action =? "")%string || (serial =? "")%string then
      publish t_err (err_obj corr "missing action/serial") 0 false
    else
      publish t_ack (ack_obj corr (action ++ " ok")) 0 false.

Definition handle_motor_cmd (motor_id : string) (d : json) : M unit :=
  c <- dict_get d "corr" JNull ;;
  let corr := py_or c (JStr "") in
  k <- dict_get d "command" JNull ;;
  cmd <- str_method "upper" str_upper (py_or k (JStr "")) ;;
  let t_ack := t_motor_ack motor_id in
  let t_err := t_motor_err motor_id in
  dropped <- maybe_drop ;;
  if dropped then ret tt
  else
    sleep_latency ;;;
    if motor_fail args && (cmd =? "START_MOTOR")%string then
      publish t_err (err_obj corr "sim motor fault") 0 false
    else
      publish t_ack (ack_obj corr "sim motor ok") 0 false.

(** *** Message handling *)

(** [topic_ok and (data.get(type) == name)]: the right operand is evaluated
    only when the left one holds. *)
Definition topic_and_type (topic_ok : bool) (data : json) (name : string)
  : M bool :=
  if topic_ok then
    ty <- dict_get data "type" JNull ;; ret (eq_str ty name)
  else ret false.

(** The if / elif / else of [_on_message], on the parsed payload. *)
Definition dispatch (topic : string) (data : json) : M unit :=
  is_pivot <- topic_and_type (topic =? t_control)%string data "PIVOT_CMD" ;;
  if is_pivot then handle_pivot_cmd data
  else
    is_device <- topic_and_type (topic =? t_device)%string data "DEVICE_CMD" ;;
    if is_device then handle_device_cmd data
    else
      match re_motor_match topic with
      | Some motor_id =>
          is_motor <- topic_and_type true data "MOTOR_CMD" ;;
          if is_motor then handle_motor_cmd motor_id data else ret tt
      | None => ret tt
      end.

Definition on_message (topic payload : string) : M unit :=
  let text := bytes_decode payload in
  match json_loads (if (text =? "")%string then "{}" else text) with
  | None => ret tt
  | Some data => dispatch topic data
  end.

(** *** run *)

Fixpoint sleep_ticks (n : nat) : M unit :=
  match n with
  | O => ret tt
  | S k => time_sleep 1 ;;; sleep_ticks k
  end.

(** [run_forever], interrupted from the keyboard after [ticks] calls of
    [time.sleep(1.0)]; the [finally] block then disconnects gracefully. *)
Definition run_forever (ticks : nat) : M unit :=
  sleep_ticks ticks ;;;
  fun w =>
    match client w with
    | Some _ => (emit ELoopStop ;;; emit EDisconnect) w
    | None => ret tt w
    end.

(** *** The process *)

Inductive callback : Type :=
| CbConnect (rc : Z)
| CbMessage (topic payload : string)
| CbDisconnect (rc : Z).

Definition run_callback (cb : callback) : M unit :=
  match cb with
  | CbConnect rc => on_connect rc
  | CbMessage topic payload => on_message topic payload
  | CbDisconnect rc => on_disconnect rc
  end.

(** The client's network loop delivers the callbacks in order; an exception
    that escapes a callback ends the loop, not the process. *)
Fixpoint network_loop (cbs : list callback) : M unit :=
  match cbs with
  | [] => ret tt
  | cb :: rest =>
      fun w =>
        match run_callback cb w with
        | (Done _, w') => network_loop rest w'
        | (Raised _, w') => (Done tt, w')
        end
  end.

(** [main]: connect, serve the callbacks [cbs], shut down after [ticks]. *)
Definition main (cbs : list callback) (ticks : nat) : M unit :=
  connect ;;; network_loop cbs ;;; run_forever ticks.

End Simulator.

(** ** A reference runtime

    ASCII case mapping and stripping, UTF-8 decoding with replacement and a
    JSON reader that follows the scanner of Python's [json] module.  It is
    used to run the simulator on concrete messages. *)

Definition code (c : ascii) : N := N_of_ascii c.

Definition between (lo hi : N) (c : ascii) : bool :=
  ((lo <=? code c) && (code c <=? hi))%N.

Definition ascii_upper (c : ascii) : ascii :=
  if between 97 122 c then ascii_of_N (code c - 32) else c.

Definition ascii_lower (c : ascii) : ascii :=
  if between 65 90 c then ascii_of_N (code c + 32) else c.

Fixpoint map_string (f : ascii -> ascii) (s : string) : string :=
  match s with
  | EmptyString => EmptyString
  | String c r => String (f c) (map_string f r)
  end.

(** The ASCII characters for which [str.isspace] holds. *)
Definition is_space (c : ascii) : bool :=
  between 9 13 c || between 28 32 c.

Fixpoint lstrip (s : string) : string :=
  match s with
  | EmptyString => EmptyString
  | String c r => if is_space c then lstrip r else s
  end.

Fixpoint rstrip (s : string) : string :=
  match s with
  | EmptyString => EmptyString
  | String c r =>
      match rstrip r with
      | EmptyString => if is_space c then EmptyString else String c EmptyString
      | r' => String c r'
      end
  end.

Definition ascii_strip (s : string) : string := rstrip (lstrip s).

(** *** UTF-8 decoding, errors replaced by U+FFFD *)

Definition chr (n : N) : ascii := ascii_of_N n.

Definition replacement : string :=
  String (chr 239) (String (chr 191) (String (chr 189) EmptyString)).

Definition cont (c : ascii) : bool := between 128 191 c.

(** The second byte a lead byte admits (Unicode table 3-7). *)
Definition second_ok (lead b : ascii) : bool :=
  if (code lead =? 224)%N then between 160 191 b
  else if (code lead =? 237)%N then between 128 159 b
  else if (code lead =? 240)%N then between 144 191 b
  else if (code lead =? 244)%N then between 128 143 b
  else cont b.

Fixpoint utf8_decode_replace (s : string) : string :=
  match s with
  | EmptyString => EmptyString
  | String a r =>
      if between 0 127 a then String a (utf8_decode_replace r)
      else if between 194 223 a then
        match r with
        | String b r2 =>
            if cont b then String a (String b (utf8_decode_replace r2))
            else replacement ++ utf8_decode_replace r
        | EmptyString => replacement
        end
      else if between 224 239 a then
        match r with
        | String b r2 =>
            if second_ok a b then
              match r2 with
              | String c r3 =>
                  if cont c then
                    String a (String b (String c (utf8_decode_replace r3)))
                  else replacement ++ utf8_decode_replace r2
              | EmptyString => replacement
              end
            else replacement ++ utf8_decode_replace r
        | EmptyString => replacement
        end
      else if between 240 244 a then
        match r with
        | String b r2 =>
            if second_ok a b then
              match r2 with
              | String c r3 =>
                  if cont c then
                    match r3 with
                    | String d r4 =>
                        if cont d then
                          String a (String b (String c (String d
                            (utf8_decode_replace r4))))
                        else replacement ++ utf8_decode_replace r3
                    | EmptyString => replacement
                    end
                  else replacement ++ utf8_decode_replace r2
              | EmptyString => replacement
              end
            else replacement ++ utf8_decode_replace r
        | EmptyString => replacement
        end
      else replacement ++ utf8_decode_replace r
  end.

(** UTF-8 bytes of a code point (a lone surrogate is written on three
    bytes). *)
Definition utf8_encode (cp : N) : string :=
  (if cp <? 128 then String (chr cp) EmptyString
   else if cp <? 2048 then
     String (chr (192 + cp / 64)) (String (chr (128 + cp mod 64)) EmptyString)
   else if cp <? 65536 then
     String (chr (224 + cp / 4096))
       (String (chr (128 + (cp / 64) mod 64))
          (String (chr (128 + cp mod 64)) EmptyString))
   else
     String (chr (240 + cp / 262144))
       (String (chr (128 + (cp / 4096) mod 64))
          (String (chr (128 + (cp / 64) mod 64))
             (String (chr (128 + cp mod 64)) EmptyString))))%N.

(** *** The JSON reader *)

Definition quote : ascii := chr 34.
Definition backslash : ascii := chr 92.

Definition is_ws (c : ascii) : bool :=
  (code c =? 32)%N || (code c =? 9)%N || (code c =? 10)%N || (code c =? 13)%N.

Fixpoint skip_ws (s : string) : string :=
  match s with
  | EmptyString => EmptyString
  | String c r => if is_ws c then skip_ws r else s
  end.

Definition is_digit (c : ascii) : bool := between 48 57 c.

Definition digit_val (c : ascii) : Z := Z.of_N (code c) - 48.

(** The longest run of digits at the head of [s]: its value continuing
    [acc], how many there are, and what follows. *)
Fixpoint take_digits (s : string) (acc : Z) (n : Z) : Z * Z * string :=
  match s with
  | String c r =>
      if is_digit c then take_digits r (10 * acc + digit_val c) (n + 1)
      else (acc, n, s)
  | EmptyString => (acc, n, s)
  end.

Definition hex_val (c : ascii) : option N :=
  if is_digit c then Some (code c - 48)%N
  else if between 97 102 c then Some (code c - 87)%N
  else if between 65 70 c then Some (code c - 55)%N
  else None.

(** Four hexadecimal digits. *)
Definition hex4 (s : string) : option (N * string) :=
  match s with
  | String a (String b (String c (String d r))) =>
      match hex_val a, hex_val b, hex_val c, hex_val d with
      | Some x, Some y, Some z, Some t =>
          Some (((x * 16 + y) * 16 + z) * 16 + t, r)%N
      | _, _, _, _ => None
      end
  | _ => None
  end.

Definition simple_escape (c : ascii) : option ascii :=
  let n := code c in
  (if n =? 34 then Some quote
   else if n =? 92 then Some backslash
   else if n =? 47 then Some "/"%char
   else if n =? 98 then Some (chr 8)
   else if n =? 102 then Some (chr 12)
   else if n =? 110 then Some (chr 10)
   else if n =? 114 then Some (chr 13)
   else if n =? 116 then Some (chr 9)
   else None)%N.

(** The text of a string after its opening quote (strict mode). *)
Fixpoint scan_string (fuel : nat) (s : string) : option (string * string) :=
  match fuel with
  | O => None
  | S fuel' =>
      match s with
      | EmptyString => None
      | String c r =>
          if Ascii.eqb c quote then Some (EmptyString, r)
          else if Ascii.eqb c backslash then
            match r with
            | EmptyString => None
            | String e r2 =>
                if Ascii.eqb e "u"%char then
                  match hex4 r2 with
                  | None => None
                  | Some (hi, r3) =>
                      let single :=
                        match scan_string fuel' r3 with
                        | Some (t, rest) => Some (utf8_encode hi ++ t, rest)
                        | None => None
                        end in
                      if ((55296 <=? hi) && (hi <=? 56319))%N then
                        match r3 with
                        | String b1 (String b2 r4) =>
                            if Ascii.eqb b1 backslash
                               && Ascii.eqb b2 "u"%char then
                              match hex4 r4 with
                              | None => None
                              | Some (lo, r5) =>
                                  if ((56320 <=? lo) && (lo <=? 57343))%N then
                                    match scan_string fuel' r5 with
                                    | Some (t, rest) =>
                                        Some (utf8_encode
                                                (65536 + (hi - 55296) * 1024
                                                 + (lo - 56320))%N ++ t, rest)
                                    | None => None
                                    end
                                  else single
                              end
                            else single
                        | _ => single
                        end
                      else single
                  end
                else
                  match simple_escape e with
                  | None => None
                  | Some ch =>
                      match scan_string fuel' r2 with
                      | Some (t, rest) => Some (String ch t, rest)
                      | None => None
                      end
                  end
            end
          else if between 0 31 c then None
          else
            match scan_string fuel' r with
            | Some (t, rest) => Some (String c t, rest)
            | None => None
            end
      end
  end.

(** A number at the head of [s]: an optional minus sign, then 0 or a digit
    run that does not start with 0; then, optionally, a dot and digits; then,
    optionally, e or E, a sign and digits.  It is an int when it has neither
    fraction nor exponent, a float otherwise. *)
Definition scan_int_part (s : string) : option (Z * string) :=
  match s with
  | String c r =>
      if (code c =? 48)%N then Some (0, r)
      else if between 49 57 c then
        let '(v, _, rest) := take_digits r (digit_val c) 1 in Some (v, rest)
      else None
  | EmptyString => None
  end.

Definition scan_frac (s : string) (int_part : Z) : option (Z * Z * string) :=
  match s with
  | String dot (String c r) =>
      if Ascii.eqb dot "."%char && is_digit c then
        Some (take_digits (String c r) int_part 0)
      else None
  | _ => None
  end.

Definition scan_exp (s : string) : option (Z * string) :=
  match s with
  | String e r =>
      if Ascii.eqb e "e"%char || Ascii.eqb e "E"%char then
        let '(neg, r') :=
          match r with
          | String sg r1 =>
              if Ascii.eqb sg "-"%char then (true, r1)
              else if Ascii.eqb sg "+"%char then (false, r1)
              else (false, r)
          | EmptyString => (false, r)
          end in
        match r' with
        | String c _ =>
            if is_digit c then
              let '(v, _, rest) := take_digits r' 0 0 in
              Some (if neg then - v else v, rest)
            else None
        | EmptyString => None
        end
      else None
  | EmptyString => None
  end.

Definition scan_number (s : string) : option (json * string) :=
  let '(neg, s1) :=
    match s with
    | String c r => if Ascii.eqb c "-"%char then (true, r) else (false, s)
    | EmptyString => (false, s)
    end in
  match scan_int_part s1 with
  | None => None
  | Some (i, s2) =>
      let sgn (z : Z) := if neg then - z else z in
      match scan_frac s2 i with
      | Some (m, nfrac, s3) =>
          match scan_exp s3 with
          | Some (e, s4) => Some (JFloat (sgn m) (e - nfrac), s4)
          | None => Some (JFloat (sgn m) (- nfrac), s3)
          end
      | None =>
          match scan_exp s2 with
          | Some (e, s4) => Some (JFloat (sgn i) e, s4)
          | None => Some (JInt (sgn i), s2)
          end
      end
  end.

(** [dict(pairs)]: a repeated key keeps its first position and takes the
    last value. *)
Fixpoint dict_set (k : string) (v : json) (kvs : list (string * json))
  : list (string * json) :=
  match kvs with
  | [] => [(k, v)]
  | (k', v') :: rest =>
      if (k' =? k)%string then (k, v) :: rest
      else (k', v') :: dict_set k v rest
  end.

Definition scan_literal (s : string) : option (json * string) :=
  match strip_prefix "null" s with
  | Some r => Some (JNull, r)
  | None =>
  match strip_prefix "true" s with
  | Some r => Some (JBool true, r)
  | None =>
  match strip_prefix "false" s with
  | Some r => Some (JBool false, r)
  | None =>
  match scan_number s with
  | Some x => Some x
  | None =>
  match strip_prefix "NaN" s with
  | Some r => Some (JNaN, r)
  | None =>
  match strip_prefix "Infinity" s with
  | Some r => Some (JInf false, r)
  | None =>
  match strip_prefix "-Infinity" s with
  | Some r => Some (JInf true, r)
  | None => None
  end end end end end end end.

(** [scan_once]: the value that starts at the head of [s].
    [scan_elements] reads an array from its first value on, and
    [scan_members] an object from the text after the opening quote of a key. *)
Fixpoint scan_once (fuel : nat) (s : string) {struct fuel}
  : option (json * string) :=
  match fuel with
  | O => None
  | S f =>
      match s with
      | EmptyString => None
      | String c r =>
          if Ascii.eqb c quote then
            match scan_string (S (String.length r)) r with
            | Some (t, rest) => Some (JStr t, rest)
            | None => None
            end
          else if Ascii.eqb c "{"%char then
            match skip_ws r with
            | String c1 r1 =>
                if Ascii.eqb c1 "}"%char then Some (JObj [], r1)
                else if Ascii.eqb c1 quote then scan_members f r1 []
                else None
            | EmptyString => None
            end
          else if Ascii.eqb c "["%char then
            match skip_ws r with
            | String c1 r1 =>
                if Ascii.eqb c1 "]"%char then Some (JArr [], r1)
                else scan_elements f (String c1 r1) []
            | EmptyString => None
            end
          else scan_literal s
      end
  end
with scan_elements (fuel : nat) (s : string) (acc : list json) {struct fuel}
  : option (json * string) :=
  match fuel with
  | O => None
  | S f =>
      match scan_once f s with
      | None => None
      | Some (v, s1) =>
          match skip_ws s1 with
          | String c s2 =>
              if Ascii.eqb c "]"%char then Some (JArr (acc ++ [v]), s2)
              else if Ascii.eqb c ","%char then
                scan_elements f (skip_ws s2) (acc ++ [v])
              else None
          | EmptyString => None
          end
      end
  end
with scan_members (fuel : nat) (s : string) (acc : list (string * json))
  {struct fuel} : option (json * string) :=
  match fuel with
  | O => None
  | S f =>
      match scan_string (S (String.length s)) s with
      | None => None
      | Some (key, s1) =>
          match skip_ws s1 with
          | String colon s2 =>
              if Ascii.eqb colon ":"%char then
                match scan_once f (skip_ws s2) with
                | None => None
                | Some (v, s3) =>
                    let acc' := dict_set key v acc in
                    match skip_ws s3 with
                    | String c s4 =>
                        if Ascii.eqb c "}"%char then Some (JObj acc', s4)
                        else if Ascii.eqb c ","%char then
                          match skip_ws s4 with
                          | String q s5 =>
                              if Ascii.eqb q quote then scan_members f s5 acc'
                              else None
                          | EmptyString => None
                          end
                        else None
                    | EmptyString => None
                    end
                end
              else None
          | EmptyString => None
          end
      end
  end.

(** [json.loads(text)]: one value between optional whitespace. *)
Definition ref_json_loads (text : string) : option json :=
  match scan_once (4 * String.length text + 8) (skip_ws text) with
  | Some (v, rest) =>
      match skip_ws rest with
      | EmptyString => Some v
      | String _ _ => None
      end
  | None => None
  end.

(** JSON text written with apostrophes in place of double quotes. *)
Definition qq (s : string) : string :=
  map_string (fun c => if Ascii.eqb c "'"%char then quote else c) s.

#[export] Instance ascii_runtime : PyRuntime.
Proof.
  refine {|
    bytes_decode := utf8_decode_replace;
    json_loads := ref_json_loads;
    str_upper := map_string ascii_upper;
    str_lower := map_string ascii_lower;
    str_strip := ascii_strip;
    bytes_decode_empty := eq_refl;
    json_loads_empty_object := eq_refl;
    str_upper_empty := _;
    str_strip_empty := eq_refl
  |}.
  intros [|c r]; simpl; split; intro H; try reflexivity; discriminate H.
Defined.

(** ** Vocabulary of the properties *)

(** The three command categories; a motor command carries the identifier
    taken from its topic. *)
Inductive handler : Type :=
| HPivot
| HDevice
| HMotor (motor_id : string).

(** The item of a payload under a key, when the payload is a dict that has
    the key. *)
Definition field_opt (d : json) (k : string) : option json :=
  match d with
  | JObj kvs => lookup k kvs
  | _ => None
  end.

(** [d.get(k)]: [None] for a missing key. *)
Definition field (d : json) (k : string) : json :=
  match field_opt d k with
  | Some v => v
  | None => JNull
  end.

Definition is_dict (d : json) : bool :=
  match d with JObj _ => true | _ => false end.

Definition str_or_falsy (v : json) : bool := is_str v || negb (truthy v).

(** The text of a str; the empty text for any other value. *)
Definition text_of (v : json) : string :=
  match v with
  | JStr s => s
  | _ => ""
  end.

(** The payload is a dict whose command fields have the type the handler
    relies on: [run] missing or a str; [action], [serial] and [command] a
    str or a falsy value (a missing key included). *)
Definition fields_ok (h : handler) (d : json) : bool :=
  is_dict d &&
  match h with
  | HPivot =>
      match field_opt d "run" with
      | Some v => is_str v
      | None => true
      end
  | HDevice =>
      str_or_falsy (field d "action") && str_or_falsy (field d "serial")
  | HMotor _ => str_or_falsy (field d "command")
  end.

Definition is_publish (e : event) : bool :=
  match e with EPublish _ _ _ _ => true | _ => false end.

Definition carries_offline (o : json) : bool :=
  match field_opt o "message" with
  | Some v => eq_str v "Offline"
  | None => false
  end.

(** A will registration or a publish whose payload says Offline. *)
Definition mentions_offline (e : event) : bool :=
  match e with
  | EWillSet _ o _ _ => carries_offline o
  | EPublish _ o _ _ => carries_offline o
  | _ => false
  end.

Section Vocabulary.

Context {R : PyRuntime}.
Variable args : Args.

Definition run_handler (h : handler) (d : json) : M unit :=
  match h with
  | HPivot => handle_pivot_cmd args d
  | HDevice => handle_device_cmd args d
  | HMotor motor_id => handle_motor_cmd args motor_id d
  end.

Definition ack_topic (h : handler) : string :=
  match h with
  | HMotor motor_id => t_motor_ack args motor_id
  | _ => t_ack args
  end.

Definition err_topic (h : handler) : string :=
  match h with
  | HMotor motor_id => t_motor_err args motor_id
  | _ => t_err args
  end.

Definition is_ack (h : handler) (e : event) : Prop :=
  exists corr note, e = EPublish (ack_topic h) (ack_obj corr note) 0 false.

Definition is_err (h : handler) (e : event) : Prop :=
  exists corr reason, e = EPublish (err_topic h) (err_obj corr reason) 0 false.

(** What [_maybe_drop] answers in world [w]. *)
Definition drop_decision (w : world) : bool :=
  Qltb (draws w (cursor w)) (drop_threshold args).

(** The seconds [_sleep_latency] waits when it reads the draw [u]. *)
Definition delay (u : Q) : Q :=
  (py_max 0 (latency args) + (0 + (py_max 0 (random_lag args) - 0) * u))%Q.

(** The wait of a handler started in [w]: its second draw sets the jitter. *)
Definition wait (w : world) : event := ESleep (delay (draws w (cursor w + 1))).

(** The calls [es] extend the log and every one of them satisfies [Q]. *)
Definition sends {A} (Q : event -> Prop) (m : M A) : Prop :=
  forall w, exists n es, snd (m w) = advance n es w /\ Forall Q es.

(** The [corr] a handler puts in its reply. *)
Definition reply_corr (d : json) : json := py_or (field d "corr") (JStr "").

End Vocabulary.

(** [s] has no slash. *)
Fixpoint no_slash (s : string) : bool :=
  match s with
  | EmptyString => true
  | String c r => negb (Ascii.eqb c "/"%char) && no_slash r
  end.

(** One topic level: not empty and without a slash. *)
Definition segment (s : string) : bool :=
  negb (s =? "")%string && no_slash s.

(** ** Statements *)

Section Statements.

Context {R : PyRuntime}.
Variable args : Args.

(** Handler [h], run on payload [d] in world [w], either drops (it reads
    one draw and calls nothing) or waits and then publishes one message, an
    ack or an err and not both. *)
Definition drop_or_one_reply (h : handler) (d : json) (w : world) : Prop :=
  (drop_decision args w = true ->
   run_handler args h d w = (Done tt, advance 1 [] w)) /\
  (drop_decision args w = false ->
   exists e,
     (is_ack args h e \/ is_err args h e) /\
     ~ (is_ack args h e /\ is_err args h e) /\
     run_handler args h d w = (Done tt, advance 2 [wait args w; e] w)).

(** A published object carries [v] under [corr]. *)
Definition corr_is (v : json) (e : event) : Prop :=
  match e with
  | EPublish _ obj _ _ => field_opt obj "corr" = Some v
  | _ => True
  end.

(** A published object carries what the payload [d] has under [corr]. *)
Definition echoes_inbound_corr (d : json) (e : event) : Prop :=
  match e with
  | EPublish _ obj _ _ => field_opt obj "corr" = field_opt d "corr"
  | _ => True
  end.

(** A published object has a str under [corr]. *)
Definition corr_is_str (e : event) : Prop :=
  match e with
  | EPublish _ obj _ _ => exists s, field_opt obj "corr" = Some (JStr s)
  | _ => True
  end.

(** The outcome of a Motor command that was not dropped: an err on the
    motor's err topic when [fault], an ack on its ack topic otherwise. *)
Definition motor_reply (fault : bool) (m : string) (d : json) (w : world)
  : outcome unit * world :=
  (Done tt,
   advance 2
     [wait args w;
      if fault then
        EPublish ("farm/" ++ farm_id args ++ "/motor/" ++ m ++ "/err")
          (JObj [("corr", reply_corr d); ("ok", JBool false);
                 ("reason", JStr "sim motor fault")]) 0 false
      else
        EPublish ("farm/" ++ farm_id args ++ "/motor/" ++ m ++ "/ack")
          (JObj [("corr", reply_corr d); ("ok", JBool true);
                 ("note", JStr "sim motor ok")]) 0 false] w).

(** The outcome of a Device command that was not dropped: an err when
    [missing], an ack that names the uppercased action otherwise. *)
Definition device_reply (missing : bool) (d : json) (w : world)
  : outcome unit * world :=
  (Done tt,
   advance 2
     [wait args w;
      if missing then
        EPublish ("farm/" ++ farm_id args ++ "/err")
          (JObj [("corr", reply_corr d); ("ok", JBool false);
                 ("reason", JStr "missing action/serial")]) 0 false
      else
        EPublish ("farm/" ++ farm_id args ++ "/ack")
          (JObj [("corr", reply_corr d); ("ok", JBool true);
                 ("note",
                  JStr (str_upper (text_of (field d "action")) ++ " ok"))])
          0 false] w).

(** A field that is missing or holds the empty str. *)
Definition empty_or_absent (o : option json) : bool :=
  match o with
  | Some v => eq_str v ""
  | None => true
  end.

(** The outcome of a Pivot command that was not dropped and is acked with
    [note]. *)
Definition pivot_reply (note : string) (d : json) (w : world)
  : outcome unit * world :=
  (Done tt,
   advance 2
     [wait args w;
      EPublish ("farm/" ++ farm_id args ++ "/ack")
        (JObj [("corr", reply_corr d); ("ok", JBool true);
               ("note", JStr note)]) 0 false] w).

(** The calls of [connect] made for the client [cid]. *)
Definition session_setup (cid : string) : list event :=
  [EClientNew cid true;
   EUserPw (user args) (password args);
   EWillSet ("farm/" ++ farm_id args ++ "/status")
     (JObj [("message", JStr "Offline")]) 1 true;
   match cafile args with
   | Some f => if truthy_opt (Some f) then ETlsSet f else ETlsSetContext
   | None => ETlsSetContext
   end;
   EConnect (host args) (port args) 30;
   ELoopStart].

(** The calls of the graceful shutdown after [ticks] idle seconds. *)
Definition shutdown (ticks : nat) : list event :=
  (repeat (ESleep 1) ticks ++ [ELoopStop; EDisconnect])%list.

(** The topic a command for motor [m] arrives on. *)
Definition motor_control_topic (m : string) : string :=
  "farm/" ++ farm_id args ++ "/motor/" ++ m ++ "/control".

(** The identifier [connect] gives the client in world [w]. *)
Definition connect_cid (w : world) : string :=
  let generated :=
    "device_sim_"
    ++ str_of_Z (1000 + Qfloor (draws w (cursor w)
                                * inject_Z (999999 - 1000 + 1))) in
  match client_id args with
  | Some c => if truthy_opt (Some c) then c else generated
  | None => generated
  end.

(** How many draws [connect] reads: one when it generates the identifier. *)
Definition connect_draws : nat :=
  if truthy_opt (client_id args) then 0%nat else 1%nat.

(** A call that is neither a will nor a publish of the Offline payload. *)
Definition silent_about_offline (e : event) : Prop :=
  mentions_offline e = false.

End Statements.

(** ** The simulator on concrete messages

    Farm F1, the default latency of one second and no jitter, every draw
    equal to one half, run on the reference runtime. *)

Definition demo_args (drop : Q) (fail : bool) : Args :=
  mkArgs "o7fd7307.ala.us-east-1.emqxsl.com" 8883 "F1" "device_ui" "secret"
    1 0 drop fail None None.

Definition demo_world : world :=
  mkWorld (Some "device_sim_1000") (fun _ => 1 # 2) 0 [].

Definition msg (type_name : string) (rest : list (string * json)) : json :=
  JObj (("type", JStr type_name) :: rest).

Definition pivot_start : json :=
  msg "PIVOT_CMD" [("corr", JStr "abc123"); ("run", JStr "START")].

Definition pivot_run_true_text : string :=
  qq "{'type':'PIVOT_CMD','corr':'c1','run':true}".

Definition pivot_run_true : json :=
  msg "PIVOT_CMD" [("corr", JStr "c1"); ("run", JBool true)].

Definition pivot_corr_zero_text : string :=
  qq "{'type':'PIVOT_CMD','corr':0,'run':'START'}".

Definition pivot_corr_zero : json :=
  msg "PIVOT_CMD" [("corr", JInt 0); ("run", JStr "START")].

Definition pivot_corr_five_text : string :=
  qq "{'type':'PIVOT_CMD','corr':5,'run':'START'}".

Definition device_reboot (serial : string) : json :=
  msg "DEVICE_CMD"
    [("corr", JStr "c2"); ("action", JStr "reboot"); ("serial", JStr serial)].

Definition motor_start (command : string) : json :=
  msg "MOTOR_CMD" [("corr", JStr "c7"); ("command", JStr command)].

(** The wait of the demo configuration: the base latency, no jitter. *)
Definition one_second : event := wait (demo_args 0 false) demo_world.

(** ** Vocabulary of further properties *)

Section Further.

Context {R : PyRuntime}.
Variable args : Args.

(** The seven topics [__init__] derives from the farm identifier. *)
Definition fixed_topics : list string :=
  [t_status args; t_dev_status args; t_control args; t_device args;
   t_motor_ctrl args; t_ack args; t_err args].

(** A topic on which no payload reaches a handler. *)
Definition unrouted (topic : string) : Prop :=
  forall data w, dispatch args topic data w = (Done tt, w).

(** What one inbound message can do: nothing but draws; a wait that ends in
    an exception; or a wait followed by one publish at QoS 0, not
    retained. *)
Definition one_message_effect (o : outcome unit) (n : nat) (es : list event)
  : Prop :=
  (es = [] /\ (n <= 1)%nat) \/
  (exists q e, es = [ESleep q] /\ n = 2%nat /\ o = Raised e) \/
  (exists q t obj,
     es = [ESleep q; EPublish t obj 0 false] /\ n = 2%nat /\ o = Done tt).

End Further.

(** ** Basic facts *)

Lemma advance_advance n1 es1 n2 es2 w :
  advance n2 es2 (advance n1 es1 w) = advance (n1 + n2) (es1 ++ es2) w.
Proof.
  unfold advance; simpl. now rewrite Nat.add_assoc, app_assoc.
Qed.

Lemma advance_zero w : advance 0 [] w = w.
Proof.
  destruct w; unfold advance; simpl. now rewrite Nat.add_0_r, app_nil_r.
Qed.

Lemma Qltb_true x y : Qltb x y = true <-> (x < y)%Q.
Proof.
  unfold Qltb. rewrite negb_true_iff. split; intro H.
  - apply Qnot_le_lt. intro L. apply Qle_bool_iff in L. congruence.
  - destruct (Qle_bool y x) eqn:E; [|reflexivity].
    apply Qle_bool_iff in E. exfalso. exact (Qlt_not_le _ _ H E).
Qed.

Lemma lookup_dict_get kvs k dflt w :
  dict_get (JObj kvs) k dflt w =
  (Done (match lookup k kvs with Some v => v | None => dflt end), w).
Proof. reflexivity. Qed.

Lemma py_or_text v :
  str_or_falsy v = true -> py_or v (JStr "") = JStr (text_of v).
Proof.
  unfold str_or_falsy, py_or. destruct v; simpl; intro H;
    try discriminate H; try reflexivity;
    try (apply negb_true_iff in H; rewrite H; reflexivity).
  destruct (String.eqb_spec s ""); simpl; congruence.
Qed.

Section Runs.

Context {R : PyRuntime}.
Variable args : Args.

Lemma maybe_drop_run w :
  maybe_drop args w = (Done (drop_decision args w), advance 1 [] w).
Proof. reflexivity. Qed.

Lemma sleep_latency_run w :
  sleep_latency args w =
  (Done tt, advance 1 [ESleep (delay args (draws w (cursor w)))] w).
Proof.
  unfold sleep_latency, random_uniform, time_sleep, emit, bind,
    random_random, ret; simpl.
  now rewrite advance_advance.
Qed.

Lemma publish_run topic obj qos retain w c :
  client w = Some c ->
  publish topic obj qos retain w =
  (Done tt, advance 0 [EPublish topic obj qos retain] w).
Proof. intro H. unfold publish. now rewrite H. Qed.

(** A handler that passed the drop check waits, then runs [k]. *)
Lemma after_drop_check (k : M unit) w :
  (dropped <- maybe_drop args ;;
   if dropped then ret tt else sleep_latency args ;;; k) w =
  if drop_decision args w then (Done tt, advance 1 [] w)
  else k (advance 2 [wait args w] w).
Proof.
  unfold bind at 1. rewrite maybe_drop_run.
  destruct (drop_decision args w); [reflexivity|].
  unfold bind. rewrite sleep_latency_run, advance_advance. reflexivity.
Qed.

Lemma publish_after_wait topic obj w c :
  client w = Some c ->
  publish topic obj 0 false (advance 2 [wait args w] w) =
  (Done tt, advance 2 [wait args w; EPublish topic obj 0 false] w).
Proof.
  intro H. rewrite (publish_run _ _ _ _ _ c) by exact H.
  now rewrite advance_advance.
Qed.

(** The reply of the Pivot handler to a payload whose [run] is a str or
    missing. *)
Lemma pivot_run kvs w c :
  client w = Some c ->
  fields_ok HPivot (JObj kvs) = true ->
  handle_pivot_cmd args (JObj kvs) w =
  if drop_decision args w then (Done tt, advance 1 [] w)
  else
    (Done tt,
     advance 2
       [wait args w;
        EPublish (t_ack args)
          (ack_obj (reply_corr (JObj kvs))
             ("pivot "
              ++ str_lower
                   (match lookup "run" kvs with
                    | Some v => text_of v
                    | None => ""
                    end)
              ++ " accepted")) 0 false] w).
Proof.
  intros Hc Hok. unfold handle_pivot_cmd.
  unfold bind at 1. rewrite lookup_dict_get.
  rewrite after_drop_check.
  destruct (drop_decision args w); [reflexivity|].
  unfold bind at 1. rewrite lookup_dict_get.
  unfold fields_ok in Hok; simpl in Hok.
  destruct (lookup "run" kvs) as [v|] eqn:E.
  - destruct v; try discriminate Hok. unfold bind; simpl.
    now rewrite (publish_after_wait _ _ _ c Hc).
  - unfold bind; simpl. now rewrite (publish_after_wait _ _ _ c Hc).
Qed.

Lemma dict_get_field kvs k w :
  dict_get (JObj kvs) k JNull w = (Done (field (JObj kvs) k), w).
Proof. reflexivity. Qed.

Lemma str_method_or name f v w :
  str_or_falsy v = true ->
  str_method name f (py_or v (JStr "")) w = (Done (f (text_of v)), w).
Proof. intro H. now rewrite (py_or_text v H). Qed.

(** The reply of the Device handler to a payload whose [action] and [serial]
    are strs or falsy. *)
Lemma device_run kvs w c :
  client w = Some c ->
  fields_ok HDevice (JObj kvs) = true ->
  let d := JObj kvs in
  let action := str_upper (text_of (field d "action")) in
  let serial := str_strip (text_of (field d "serial")) in
  handle_device_cmd args d w =
  if drop_decision args w then (Done tt, advance 1 [] w)
  else
    (Done tt,
     advance 2
       [wait args w;
        if (action =? "")%string || (serial =? "")%string then
          EPublish (t_err args)
            (err_obj (reply_corr d) "missing action/serial") 0 false
        else
          EPublish (t_ack args)
            (ack_obj (reply_corr d) (action ++ " ok")) 0 false] w).
Proof.
  intros Hc Hok d action serial. unfold handle_device_cmd.
  unfold fields_ok in Hok; simpl in Hok.
  apply andb_true_iff in Hok. destruct Hok as [Ha Hs].
  unfold bind at 1. unfold d at 1. rewrite dict_get_field.
  unfold bind at 1. unfold d at 1. rewrite dict_get_field.
  unfold bind at 1. rewrite (str_method_or _ _ _ _ Ha).
  unfold bind at 1. unfold d at 1. rewrite dict_get_field.
  unfold bind at 1. rewrite (str_method_or _ _ _ _ Hs).
  fold d action serial.
  rewrite after_drop_check.
  destruct (drop_decision args w); [reflexivity|].
  destruct ((action =? "")%string || (serial =? "")%string);
    now rewrite (publish_after_wait _ _ _ c Hc).
Qed.

(** The reply of the Motor handler to a payload whose [command] is a str or
    falsy. *)
Lemma motor_run motor_id kvs w c :
  client w = Some c ->
  fields_ok (HMotor motor_id) (JObj kvs) = true ->
  let d := JObj kvs in
  let cmd := str_upper (text_of (field d "command")) in
  handle_motor_cmd args motor_id d w =
  if drop_decision args w then (Done tt, advance 1 [] w)
  else
    (Done tt,
     advance 2
       [wait args w;
        if motor_fail args && (cmd =? "START_MOTOR")%string then
          EPublish (t_motor_err args motor_id)
            (err_obj (reply_corr d) "sim motor fault") 0 false
        else
          EPublish (t_motor_ack args motor_id)
            (ack_obj (reply_corr d) "sim motor ok") 0 false] w).
Proof.
  intros Hc Hok d cmd. unfold handle_motor_cmd.
  unfold fields_ok in Hok; simpl in Hok.
  unfold bind at 1. unfold d at 1. rewrite dict_get_field.
  unfold bind at 1. unfold d at 1. rewrite dict_get_field.
  unfold bind at 1. rewrite (str_method_or _ _ _ _ Hok).
  fold d cmd.
  rewrite after_drop_check.
  destruct (drop_decision args w); [reflexivity|].
  destruct (motor_fail args && (cmd =? "START_MOTOR")%string);
    now rewrite (publish_after_wait _ _ _ c Hc).
Qed.

End Runs.

(** ** What a run may add to the log *)

Section Sends.

Context {R : PyRuntime}.
Variable args : Args.
Variable Q : event -> Prop.

Lemma sends_ret {A} (a : A) : sends Q (ret a).
Proof. intro w. exists 0%nat, []. now rewrite advance_zero. Qed.

Lemma sends_raise {A} (e : exn) : sends Q (@raise A e).
Proof. intro w. exists 0%nat, []. now rewrite advance_zero. Qed.

Lemma sends_emit (e : event) : Q e -> sends Q (emit e).
Proof.
  intros H w. exists 0%nat, [e]. split; [reflexivity|]. now constructor.
Qed.

Lemma sends_random : sends Q random_random.
Proof. intro w. exists 1%nat, []. now split. Qed.

Lemma sends_bind {A B} (m : M A) (k : A -> M B) :
  sends Q m -> (forall a, sends Q (k a)) -> sends Q (bind m k).
Proof.
  intros Hm Hk w. destruct (Hm w) as (n & es & E & F).
  unfold bind. destruct (m w) as [[a|e] w']; simpl in E; subst w'.
  - destruct (Hk a (advance n es w)) as (n2 & es2 & E2 & F2).
    exists (n + n2)%nat, (es ++ es2)%list.
    rewrite E2, advance_advance. split; [reflexivity|].
    apply Forall_app. now split.
  - exists n, es. now split.
Qed.

(** The continuation of [d.get] runs only on a dict, with the item read. *)
Lemma sends_dict_get {B} d k dflt (f : json -> M B) :
  (forall kvs, d = JObj kvs ->
     sends Q (f (match lookup k kvs with Some v => v | None => dflt end))) ->
  sends Q (x <- dict_get d k dflt ;; f x).
Proof.
  intro H.
  destruct d; try (intro w; exists 0%nat, []; now rewrite advance_zero).
  intro w. unfold bind. rewrite lookup_dict_get. now apply H.
Qed.

(** The continuation of a str method runs only on a str. *)
Lemma sends_str_method {B} name g v (f : string -> M B) :
  (forall s, v = JStr s -> sends Q (f (g s))) ->
  sends Q (x <- str_method name g v ;; f x).
Proof.
  intro H.
  destruct v; try (intro w; exists 0%nat, []; now rewrite advance_zero).
  intro w. unfold bind; simpl. now apply H.
Qed.

Lemma sends_publish topic obj qos retain :
  Q (EPublish topic obj qos retain) -> sends Q (publish topic obj qos retain).
Proof.
  intros H w. unfold publish. destruct (client w).
  - now apply sends_emit.
  - now apply sends_raise.
Qed.

Lemma sends_sleep_latency :
  (forall q, Q (ESleep q)) -> sends Q (sleep_latency args).
Proof.
  intros H w. rewrite sleep_latency_run.
  exists 1%nat, [ESleep (delay args (draws w (cursor w)))].
  split; [reflexivity|]. constructor; [apply H|constructor].
Qed.

Lemma sends_maybe_drop : sends Q (maybe_drop args).
Proof. intro w. rewrite maybe_drop_run. exists 1%nat, []. now split. Qed.

Hypothesis Q_sleep : forall q, Q (ESleep q).

(** A handler only waits and publishes, on its own pair of topics, acks and
    errs that carry [reply_corr]. *)
Lemma handle_pivot_sends d :
  (forall note,
     Q (EPublish (t_ack args) (ack_obj (reply_corr d) note) 0 false)) ->
  sends Q (handle_pivot_cmd args d).
Proof.
  intro Ha. unfold handle_pivot_cmd.
  apply sends_dict_get; intros kvs ->.
  apply sends_bind; [apply sends_maybe_drop|]. intros [|]; [apply sends_ret|].
  apply sends_bind; [now apply sends_sleep_latency|]. intros _.
  apply sends_dict_get; intros kvs' _.
  apply sends_str_method; intros s _.
  apply sends_publish. apply Ha.
Qed.

Lemma handle_device_sends d :
  (forall note,
     Q (EPublish (t_ack args) (ack_obj (reply_corr d) note) 0 false)) ->
  (forall reason,
     Q (EPublish (t_err args) (err_obj (reply_corr d) reason) 0 false)) ->
  sends Q (handle_device_cmd args d).
Proof.
  intros Ha He. unfold handle_device_cmd.
  apply sends_dict_get; intros kvs ->.
  apply sends_dict_get; intros kvs1 _.
  apply sends_str_method; intros action _.
  apply sends_dict_get; intros kvs2 _.
  apply sends_str_method; intros serial _.
  apply sends_bind; [apply sends_maybe_drop|]. intros [|]; [apply sends_ret|].
  apply sends_bind; [now apply sends_sleep_latency|]. intros _.
  destruct (_ || _); apply sends_publish; [apply He|apply Ha].
Qed.

Lemma handle_motor_sends motor_id d :
  (forall note,
     Q (EPublish (t_motor_ack args motor_id)
          (ack_obj (reply_corr d) note) 0 false)) ->
  (forall reason,
     Q (EPublish (t_motor_err args motor_id)
          (err_obj (reply_corr d) reason) 0 false)) ->
  sends Q (handle_motor_cmd args motor_id d).
Proof.
  intros Ha He. unfold handle_motor_cmd.
  apply sends_dict_get; intros kvs ->.
  apply sends_dict_get; intros kvs1 _.
  apply sends_str_method; intros cmd _.
  apply sends_bind; [apply sends_maybe_drop|]. intros [|]; [apply sends_ret|].
  apply sends_bind; [now apply sends_sleep_latency|]. intros _.
  destruct (_ && _); apply sends_publish; [apply He|apply Ha].
Qed.

Lemma run_handler_sends h d :
  (forall note,
     Q (EPublish (ack_topic args h) (ack_obj (reply_corr d) note) 0 false)) ->
  (forall reason,
     Q (EPublish (err_topic args h) (err_obj (reply_corr d) reason) 0 false)) ->
  sends Q (run_handler args h d).
Proof.
  intros Ha He. destruct h; simpl.
  - now apply handle_pivot_sends.
  - now apply handle_device_sends.
  - now apply handle_motor_sends.
Qed.

Lemma topic_and_type_sends b data name :
  sends Q (topic_and_type b data name).
Proof.
  unfold topic_and_type. destruct b; [|apply sends_ret].
  apply sends_dict_get; intros kvs _. apply sends_ret.
Qed.

(** [dispatch] hands the payload to at most one handler. *)
Lemma dispatch_sends topic data :
  (forall h, sends Q (run_handler args h data)) ->
  sends Q (dispatch args topic data).
Proof.
  intro H. unfold dispatch.
  apply sends_bind; [apply topic_and_type_sends|]. intros [|].
  { exact (H HPivot). }
  apply sends_bind; [apply topic_and_type_sends|]. intros [|].
  { exact (H HDevice). }
  destruct (re_motor_match args topic) as [motor_id|]; [|apply sends_ret].
  apply sends_bind; [apply topic_and_type_sends|]. intros [|].
  - exact (H (HMotor motor_id)).
  - apply sends_ret.
Qed.

Lemma on_message_sends topic payload :
  (forall h d, sends Q (run_handler args h d)) ->
  sends Q (on_message args topic payload).
Proof.
  intro H. unfold on_message.
  destruct (json_loads _) as [data|]; [|apply sends_ret].
  apply dispatch_sends. intro h. apply H.
Qed.

End Sends.

(** ** Topics of the motor pattern *)

Lemma strip_prefix_app p r : strip_prefix p (p ++ r) = Some r.
Proof.
  induction p as [|a p IH]; simpl; [reflexivity|].
  now rewrite Ascii.eqb_refl.
Qed.

Lemma strip_prefix_app_app p q r :
  strip_prefix (p ++ q) (p ++ r) = strip_prefix q r.
Proof.
  induction p as [|a p IH]; simpl; [reflexivity|].
  now rewrite Ascii.eqb_refl.
Qed.

Lemma eqb_app_cancel p x y : (p ++ x =? p ++ y)%string = (x =? y)%string.
Proof.
  induction p as [|a p IH]; simpl; [reflexivity|].
  now rewrite Ascii.eqb_refl.
Qed.

Lemma span_segment_app m r :
  no_slash m = true ->
  span_segment (m ++ String "/" r) = (m, String "/" r).
Proof.
  induction m as [|c m IH]; simpl; intro H; [reflexivity|].
  apply andb_true_iff in H. destruct H as [Hc Hm].
  apply negb_true_iff in Hc. rewrite Hc, (IH Hm). reflexivity.
Qed.

Section Claims.

Context {R : PyRuntime}.
Variable args : Args.

Lemma re_motor_match_control m :
  segment m = true -> re_motor_match args (motor_control_topic args m) = Some m.
Proof.
  unfold segment, re_motor_match, motor_control_topic, farm. intro H.
  apply andb_true_iff in H. destruct H as [Hne Hns].
  change ("farm/" ++ farm_id args ++ "/motor/" ++ m ++ "/control")
    with ("farm/" ++ (farm_id args ++ "/motor/" ++ m ++ "/control")).
  change ("farm/" ++ farm_id args ++ "/motor/")
    with ("farm/" ++ (farm_id args ++ "/motor/")).
  rewrite strip_prefix_app_app, strip_prefix_app_app.
  rewrite (strip_prefix_app "/motor/" (m ++ "/control")).
  rewrite (span_segment_app m "control" Hns).
  apply negb_true_iff in Hne. rewrite Hne. reflexivity.
Qed.

Lemma motor_topic_not_control m :
  (motor_control_topic args m =? t_control args)%string = false.
Proof.
  unfold motor_control_topic, t_control, farm.
  change ("farm/" ++ farm_id args ++ "/motor/" ++ m ++ "/control")
    with ("farm/" ++ (farm_id args ++ "/motor/" ++ m ++ "/control")).
  change ("farm/" ++ farm_id args ++ "/control")
    with ("farm/" ++ (farm_id args ++ "/control")).
  now rewrite !eqb_app_cancel.
Qed.

Lemma motor_topic_not_device m :
  (motor_control_topic args m =? t_device args)%string = false.
Proof.
  unfold motor_control_topic, t_device, farm.
  change ("farm/" ++ farm_id args ++ "/motor/" ++ m ++ "/control")
    with ("farm/" ++ (farm_id args ++ "/motor/" ++ m ++ "/control")).
  change ("farm/" ++ farm_id args ++ "/device")
    with ("farm/" ++ (farm_id args ++ "/device")).
  now rewrite !eqb_app_cancel.
Qed.

(** A payload typed MOTOR_CMD on the control topic of motor [m] reaches the
    Motor handler with [m]. *)
Lemma dispatch_motor m d w :
  segment m = true ->
  is_dict d = true ->
  eq_str (field d "type") "MOTOR_CMD" = true ->
  dispatch args (motor_control_topic args m) d w = handle_motor_cmd args m d w.
Proof.
  intros Hm Hd Ht. destruct d; try discriminate Hd.
  unfold dispatch.
  rewrite motor_topic_not_control, motor_topic_not_device.
  rewrite (re_motor_match_control m Hm).
  unfold bind, topic_and_type, ret; simpl.
  unfold field in Ht; simpl in Ht. now rewrite Ht.
Qed.

(** ** Drop decisions *)

Lemma always_drops w :
  (1 <= drop_rate args)%Q ->
  (draws w (cursor w) < 1)%Q ->
  drop_decision args w = true.
Proof.
  intros Hp Hu. unfold drop_decision, drop_threshold, py_min.
  destruct (Qltb (drop_rate args) 1) eqn:E.
  - apply Qltb_true in E. exfalso. exact (Qlt_not_le _ _ E Hp).
  - change (py_max 0 1) with 1%Q. now apply Qltb_true.
Qed.

Lemma topic_and_type_pure b data name w :
  exists o, topic_and_type b data name w = (o, w).
Proof.
  unfold topic_and_type. destruct b; [|now eexists].
  destruct data; now eexists.
Qed.

(** A handler whose drop check answers yes leaves the log as it was. *)
Lemma handler_quiet h d w :
  drop_decision args w = true -> log (snd (run_handler args h d w)) = log w.
Proof.
  intro H. destruct d; try (destruct h; reflexivity).
  destruct h; simpl.
  - unfold handle_pivot_cmd. unfold bind at 1. rewrite lookup_dict_get.
    rewrite after_drop_check, H. simpl. apply app_nil_r.
  - unfold handle_device_cmd.
    unfold bind at 1. rewrite dict_get_field.
    unfold bind at 1. rewrite dict_get_field.
    unfold bind at 1.
    destruct (py_or (field (JObj kvs) "action") (JStr "")); try reflexivity.
    simpl str_method. unfold ret at 1.
    unfold bind at 1. rewrite dict_get_field.
    unfold bind at 1.
    destruct (py_or (field (JObj kvs) "serial") (JStr "")); try reflexivity.
    simpl str_method. unfold ret at 1.
    rewrite after_drop_check, H. simpl. apply app_nil_r.
  - unfold handle_motor_cmd.
    unfold bind at 1. rewrite dict_get_field.
    unfold bind at 1. rewrite dict_get_field.
    unfold bind at 1.
    destruct (py_or (field (JObj kvs) "command") (JStr "")); try reflexivity.
    simpl str_method. unfold ret at 1.
    rewrite after_drop_check, H. simpl. apply app_nil_r.
Qed.

Lemma dispatch_quiet topic data w :
  drop_decision args w = true ->
  log (snd (dispatch args topic data w)) = log w.
Proof.
  intro H. unfold dispatch. unfold bind at 1.
  destruct (topic_and_type_pure (topic =? t_control args)%string data
              "PIVOT_CMD" w) as [[[|]|e] ->]; try reflexivity.
  { exact (handler_quiet HPivot data w H). }
  unfold bind at 1.
  destruct (topic_and_type_pure (topic =? t_device args)%string data
              "DEVICE_CMD" w) as [[[|]|e] ->]; try reflexivity.
  { exact (handler_quiet HDevice data w H). }
  destruct (re_motor_match args topic) as [m|]; [|reflexivity].
  unfold bind at 1.
  destruct (topic_and_type_pure true data "MOTOR_CMD" w) as [[[|]|e] ->];
    try reflexivity.
  exact (handler_quiet (HMotor m) data w H).
Qed.

Lemma ack_is_not_err h e : is_ack args h e -> ~ is_err args h e.
Proof.
  intros (c1 & n1 & ->) (c2 & n2 & E). unfold ack_obj, err_obj in E.
  discriminate E.
Qed.

End Claims.

(** ** The protocol engine *)

Section Engine.

Context {R : PyRuntime}.
Variable args : Args.

Lemma handler_reply h d w c :
  client w = Some c ->
  fields_ok h d = true ->
  drop_or_one_reply args h d w.
Proof.
  intros Hc Hok.
  assert (Hd : is_dict d = true).
  { unfold fields_ok in Hok. now apply andb_true_iff in Hok. }
  destruct d; try discriminate Hd. unfold drop_or_one_reply.
  destruct h; simpl run_handler.
  - rewrite (pivot_run args kvs w c Hc Hok).
    split; intros ->; [reflexivity|].
    eexists. split; [left; now do 2 eexists|].
    split; [|reflexivity].
    intros [Ha He]. exact (ack_is_not_err args HPivot _ Ha He).
  - rewrite (device_run args kvs w c Hc Hok).
    split; intros ->; [reflexivity|].
    destruct (_ || _)%bool.
    + eexists. split; [right; now do 2 eexists|].
      split; [|reflexivity].
      intros [Ha He]. exact (ack_is_not_err args HDevice _ Ha He).
    + eexists. split; [left; now do 2 eexists|].
      split; [|reflexivity].
      intros [Ha He]. exact (ack_is_not_err args HDevice _ Ha He).
  - rewrite (motor_run args motor_id kvs w c Hc Hok).
    split; intros ->; [reflexivity|].
    destruct (_ && _)%bool.
    + eexists. split; [right; now do 2 eexists|].
      split; [|reflexivity].
      intros [Ha He]. exact (ack_is_not_err args (HMotor motor_id) _ Ha He).
    + eexists. split; [left; now do 2 eexists|].
      split; [|reflexivity].
      intros [Ha He]. exact (ack_is_not_err args (HMotor motor_id) _ Ha He).
Qed.

(** A payload that [json.loads] rejects is discarded. *)
Lemma on_message_parse_failure topic payload w :
  json_loads
    (if (bytes_decode payload =? "")%string then "{}"
     else bytes_decode payload) = None ->
  on_message args topic payload w = (Done tt, w).
Proof. intro H. unfold on_message. now rewrite H. Qed.

(** A dict whose topic and [type] fit none of the three categories is
    discarded. *)
Lemma dispatch_unrecognised topic kvs w :
  (topic =? t_control args)%string
  && eq_str (field (JObj kvs) "type") "PIVOT_CMD" = false ->
  (topic =? t_device args)%string
  && eq_str (field (JObj kvs) "type") "DEVICE_CMD" = false ->
  match re_motor_match args topic with
  | Some _ => eq_str (field (JObj kvs) "type") "MOTOR_CMD"
  | None => false
  end = false ->
  dispatch args topic (JObj kvs) w = (Done tt, w).
Proof.
  intros Hp Hd Hm. unfold dispatch, topic_and_type, bind.
  unfold field, field_opt in Hp, Hd, Hm.
  destruct (topic =? t_control args)%string; simpl in Hp |- *; rewrite ?Hp;
    (destruct (topic =? t_device args)%string; simpl in Hd |- *; rewrite ?Hd);
    (destruct (re_motor_match args topic); simpl; [rewrite Hm|]);
    reflexivity.
Qed.

Lemma on_message_quiet topic payload w :
  drop_decision args w = true ->
  log (snd (on_message args topic payload w)) = log w.
Proof.
  intro H. unfold on_message.
  destruct (json_loads _) as [data|]; [|reflexivity].
  now apply dispatch_quiet.
Qed.

(** C1 (as amended).  A command whose fields have the type its handler
    relies on is either dropped, the drop check being the handler's first
    effect so that nothing is waited for and nothing is published, or
    answered by the simulated wait followed by exactly one publish, an ack
    or an err and not both.  When the drop rate is at least 1, no message of
    any shape adds a call to the log. *)
Theorem C1_drop_check_then_one_reply :
  (forall h d w c,
     client w = Some c -> fields_ok h d = true ->
     drop_or_one_reply args h d w) /\
  (forall topic payload w,
     (1 <= drop_rate args)%Q ->
     (forall i, (0 <= draws w i < 1)%Q) ->
     log (snd (on_message args topic payload w)) = log w).
Proof.
  split.
  - intros h d w c Hc Hok. exact (handler_reply h d w c Hc Hok).
  - intros topic payload w Hp Hu. apply on_message_quiet.
    apply always_drops; [exact Hp|]. apply Hu.
Qed.

(** C2 (as amended).  Every message a handler publishes carries, under
    [corr], the inbound [corr] value itself when that value is truthy, and
    the empty str when it is missing, null or otherwise falsy. *)
Theorem C2_corr_echoed_when_truthy (h : handler) (d : json) :
  sends
    (corr_is (if truthy (field d "corr") then field d "corr" else JStr ""))
    (run_handler args h d).
Proof.
  apply run_handler_sends; intros; exact I || reflexivity.
Qed.

(** C3 (as amended).  A Motor command that is not dropped, arriving on the
    control topic of motor [m] with a [command] that is a str or falsy, is
    answered on [farm/<F>/motor/<m>/err] with ok false and reason
    [sim motor fault] exactly when the motor-failure toggle is on and the
    command, uppercased, is START_MOTOR; otherwise it is answered on
    [farm/<F>/motor/<m>/ack] with ok true and note [sim motor ok].  The
    identifier in the reply topic is the one of the inbound topic. *)
Theorem C3_motor_fault_is_case_insensitive (m : string) (d : json)
  (w : world) (c : string) :
  client w = Some c ->
  segment m = true ->
  eq_str (field d "type") "MOTOR_CMD" = true ->
  fields_ok (HMotor m) d = true ->
  drop_decision args w = false ->
  dispatch args (motor_control_topic args m) d w =
  motor_reply args
    (motor_fail args
     && (str_upper (text_of (field d "command")) =? "START_MOTOR")%string)
    m d w.
Proof.
  intros Hc Hm Ht Hok Hdrop.
  assert (Hd : is_dict d = true).
  { unfold fields_ok in Hok. now apply andb_true_iff in Hok. }
  rewrite (dispatch_motor args m d w Hm Hd Ht).
  destruct d; try discriminate Hd.
  rewrite (motor_run args m kvs w c Hc Hok), Hdrop.
  unfold motor_reply. now destruct (_ && _)%bool.
Qed.

(** C4 (as amended).  A Device command that is not dropped and whose
    [action] and [serial] are strs or falsy is answered by exactly one
    message: an err on [farm/<F>/err] with ok false and reason
    [missing action/serial] when the action is empty, missing or falsy, or
    the serial is so once whitespace around it is stripped; otherwise an ack
    on [farm/<F>/ack] with ok true and the uppercased action followed by
    [ ok] as note. *)
Theorem C4_device_validation_strips_serial (d : json) (w : world)
  (c : string) :
  client w = Some c ->
  fields_ok HDevice d = true ->
  drop_decision args w = false ->
  handle_device_cmd args d w =
  device_reply args
    ((text_of (field d "action") =? "")%string
     || (str_strip (text_of (field d "serial")) =? "")%string)
    d w.
Proof.
  intros Hc Hok Hdrop.
  assert (Hd : is_dict d = true).
  { unfold fields_ok in Hok. now apply andb_true_iff in Hok. }
  destruct d; try discriminate Hd.
  rewrite (device_run args kvs w c Hc Hok), Hdrop. unfold device_reply.
  assert (E : (str_upper (text_of (field (JObj kvs) "action")) =? "")%string
              = (text_of (field (JObj kvs) "action") =? "")%string).
  { destruct (String.eqb_spec (text_of (field (JObj kvs) "action")) "")
      as [E|N].
    - apply String.eqb_eq. now apply str_upper_empty.
    - apply String.eqb_neq. intro U. apply N. now apply str_upper_empty. }
  rewrite E. now destruct (_ || _)%bool.
Qed.

(** C6 (as amended).  A Pivot command that is not dropped and whose [run]
    is a str or missing is answered by exactly one ack on [farm/<F>/ack]
    with ok true and note [pivot <run, lowercased> accepted]; and whatever
    the payload, every message the Pivot handler publishes is an ack, never
    an err. *)
Theorem C6_pivot_ack_for_str_run :
  (forall d w c,
     client w = Some c -> fields_ok HPivot d = true ->
     drop_decision args w = false ->
     handle_pivot_cmd args d w =
     pivot_reply args
       ("pivot " ++ str_lower (text_of (field d "run")) ++ " accepted") d w) /\
  (forall d,
     sends
       (fun e =>
          is_publish e = true ->
          is_ack args HPivot e /\ ~ is_err args HPivot e)
       (handle_pivot_cmd args d)).
Proof.
  split.
  - intros d w c Hc Hok Hdrop.
    assert (Hd : is_dict d = true).
    { unfold fields_ok in Hok. now apply andb_true_iff in Hok. }
    destruct d; try discriminate Hd.
    rewrite (pivot_run args kvs w c Hc Hok), Hdrop. unfold pivot_reply.
    unfold field, field_opt. now destruct (lookup "run" kvs).
  - intro d. apply handle_pivot_sends.
    + intros q H. discriminate H.
    + intros note _.
      assert (A : is_ack args HPivot
                    (EPublish (t_ack args) (ack_obj (reply_corr d) note)
                       0 false)) by now do 2 eexists.
      split; [exact A|]. now apply ack_is_not_err.
Qed.

(** C7.  On a connection accepted with result code 0 the device publishes
    Online, retained at QoS 1, on [farm/<F>/status], then Running, not
    retained at QoS 0, on [farm/<F>/device/status], then subscribes to the
    control topic, the device topic and the per-motor control wildcard, in
    this order and with nothing else. *)
Theorem C7_presence_then_subscriptions (w : world) (c : string) :
  client w = Some c ->
  on_connect args 0 w =
  (Done tt,
   advance 0
     [EPublish ("farm/" ++ farm_id args ++ "/status")
        (JObj [("message", JStr "Online")]) 1 true;
      EPublish ("farm/" ++ farm_id args ++ "/device/status")
        (JObj [("message", JStr "Running")]) 0 false;
      ESubscribe ("farm/" ++ farm_id args ++ "/control") 0;
      ESubscribe ("farm/" ++ farm_id args ++ "/device") 0;
      ESubscribe ("farm/" ++ farm_id args ++ "/motor/+/control") 0] w).
Proof.
  intro Hc. unfold on_connect. change (0 =? 0) with true. cbv iota.
  unfold bind at 1. rewrite (publish_run _ _ _ _ _ c Hc).
  unfold bind at 1. rewrite (publish_run _ _ _ _ _ c) by exact Hc.
  unfold subscribe_each, bind, emit, ret.
  now rewrite !advance_advance.
Qed.

(** C9 (as amended).  Every message a handler publishes has a [corr] field.
    It is the empty str when the inbound [corr] is missing, null or
    otherwise falsy, and it is a str whenever the inbound [corr] is a str or
    falsy; a truthy [corr] of another type is echoed with its own type. *)
Theorem C9_corr_defaults_to_empty_str (h : handler) (d : json) :
  sends
    (fun e =>
       match e with
       | EPublish _ obj _ _ =>
           exists v,
             field_opt obj "corr" = Some v /\
             (truthy (field d "corr") = false -> v = JStr "") /\
             (str_or_falsy (field d "corr") = true -> is_str v = true) /\
             (truthy (field d "corr") = true -> v = field d "corr")
       | _ => True
       end)
    (run_handler args h d).
Proof.
  assert (P : (truthy (field d "corr") = false -> reply_corr d = JStr "") /\
              (str_or_falsy (field d "corr") = true ->
               is_str (reply_corr d) = true) /\
              (truthy (field d "corr") = true ->
               reply_corr d = field d "corr")).
  { repeat split.
    - unfold reply_corr, py_or. now intros ->.
    - intro H. unfold reply_corr. now rewrite (py_or_text _ H).
    - unfold reply_corr, py_or. now intros ->. }
  apply run_handler_sends; intros; try exact I;
    (exists (reply_corr d); split; [reflexivity|exact P]).
Qed.

(** C10.  An empty payload is read as the empty JSON object, which has no
    [type]; so on every topic the message is discarded: the callback
    returns without an error and the world, its log included, is as it
    was. *)
Theorem C10_empty_payload_is_discarded (topic : string) (w : world) :
  json_loads
    (if (bytes_decode "" =? "")%string then "{}" else bytes_decode "")
  = Some (JObj []) /\
  field (JObj []) "type" = JNull /\
  on_message args topic "" w = (Done tt, w).
Proof.
  assert (L : json_loads
                (if (bytes_decode "" =? "")%string then "{}"
                 else bytes_decode "") = Some (JObj [])).
  { rewrite bytes_decode_empty. simpl. apply json_loads_empty_object. }
  split; [exact L|]. split; [reflexivity|].
  unfold on_message. rewrite L. unfold dispatch.
  unfold bind at 1.
  assert (T : forall b name,
            topic_and_type b (JObj []) name w = (Done false, w)).
  { intros [|] name; reflexivity. }
  rewrite T. unfold bind at 1. rewrite T.
  destruct (re_motor_match args topic); [|reflexivity].
  unfold bind. now rewrite T.
Qed.

End Engine.

(** ** Session lifecycle *)

Section Lifecycle.

Context {R : PyRuntime}.
Variable args : Args.

Lemma connect_run w :
  connect args w =
  (Done tt,
   mkWorld (Some (connect_cid args w)) (draws w)
     (cursor w + connect_draws args)
     (log w ++ session_setup args (connect_cid args w))).
Proof.
  unfold connect, connect_cid, connect_draws, session_setup, t_status, farm,
    offline.
  destruct (client_id args) as [cid|]; [destruct (truthy_opt (Some cid))|];
    (destruct (cafile args) as [f|]; [destruct (truthy_opt (Some f))|]);
    unfold bind, random_randint, random_random, new_client, emit, ret, advance;
    simpl; rewrite <- ?app_assoc, ?Nat.add_0_r; reflexivity.
Qed.

Lemma sleep_ticks_run n w :
  sleep_ticks n w = (Done tt, advance 0 (repeat (ESleep 1) n) w).
Proof.
  revert w. induction n as [|n IH]; intro w; simpl.
  - now rewrite advance_zero.
  - unfold bind, time_sleep, emit. rewrite IH, advance_advance. reflexivity.
Qed.

Lemma run_forever_run ticks w c :
  client w = Some c ->
  run_forever ticks w = (Done tt, advance 0 (shutdown ticks) w).
Proof.
  intro Hc. unfold run_forever, shutdown. unfold bind at 1.
  rewrite sleep_ticks_run. simpl client. rewrite Hc.
  unfold bind, emit. now rewrite !advance_advance.
Qed.

Lemma run_callback_sends cb :
  sends silent_about_offline (run_callback args cb).
Proof.
  destruct cb as [rc|topic payload|rc]; simpl.
  - unfold on_connect. destruct (rc =? 0); [|apply sends_ret].
    apply sends_bind; [now apply sends_publish|]. intros _.
    apply sends_bind; [now apply sends_publish|]. intros _.
    unfold subscribe_each.
    repeat (apply sends_bind; [now apply sends_emit|]; intros _).
    apply sends_ret.
  - apply on_message_sends. intros h d.
    apply run_handler_sends; intros; reflexivity.
  - apply sends_ret.
Qed.

(** The network loop always returns; what it adds to the log never says
    Offline. *)
Lemma network_loop_run cbs w :
  exists n es,
    network_loop args cbs w = (Done tt, advance n es w) /\
    Forall silent_about_offline es.
Proof.
  revert w. induction cbs as [|cb cbs IH]; intro w; simpl.
  - exists 0%nat, []. now rewrite advance_zero.
  - destruct (run_callback_sends cb w) as (n & es & E & F).
    destruct (run_callback args cb w) as [[u|e] w']; simpl in E; subst w'.
    + destruct (IH (advance n es w)) as (n2 & es2 & E2 & F2).
      exists (n + n2)%nat, (es ++ es2)%list.
      rewrite E2, advance_advance. split; [reflexivity|].
      apply Forall_app. now split.
    + exists n, es. now split.
Qed.

Lemma filter_silent es :
  Forall silent_about_offline es -> filter mentions_offline es = [].
Proof.
  induction 1 as [|e es He _ IH]; simpl; [reflexivity|].
  unfold silent_about_offline in He. now rewrite He.
Qed.

Lemma filter_shutdown ticks : filter mentions_offline (shutdown ticks) = [].
Proof.
  unfold shutdown. rewrite filter_app. simpl. rewrite app_nil_r.
  induction ticks as [|n IH]; simpl; [reflexivity|exact IH].
Qed.

(** C8.  In every run of the process, whatever callbacks the broker client
    delivers, the log is the session setup, then the calls of the
    callbacks, then the shutdown.  The setup registers the Offline last
    will (on [farm/<F>/status], QoS 1, retained) before it opens the
    session; no call of the callbacks says Offline; and the shutdown only
    stops the loop and disconnects.  So the last will is the only
    occurrence of the Offline payload, and nothing publishes it. *)
Theorem C8_offline_only_as_last_will (cbs : list callback) (ticks : nat)
  (w : world) :
  exists cid served w',
    main args cbs ticks w = (Done tt, w') /\
    log w' =
    (log w ++ session_setup args cid ++ served ++ shutdown ticks)%list /\
    (exists tls,
       session_setup args cid =
       [EClientNew cid true;
        EUserPw (user args) (password args);
        EWillSet ("farm/" ++ farm_id args ++ "/status")
          (JObj [("message", JStr "Offline")]) 1 true;
        tls;
        EConnect (host args) (port args) 30;
        ELoopStart] /\
       (tls = ETlsSetContext \/ exists f, tls = ETlsSet f)) /\
    Forall silent_about_offline served /\
    Forall (fun e => is_publish e = false) (shutdown ticks) /\
    filter mentions_offline
      (session_setup args cid ++ served ++ shutdown ticks) =
    [EWillSet ("farm/" ++ farm_id args ++ "/status")
       (JObj [("message", JStr "Offline")]) 1 true].
Proof.
  unfold main. unfold bind at 1. rewrite connect_run.
  set (w1 := mkWorld _ _ _ _).
  destruct (network_loop_run cbs w1) as (n & served & E & F).
  unfold bind at 1. rewrite E.
  rewrite (run_forever_run ticks _ (connect_cid args w)) by reflexivity.
  exists (connect_cid args w), served. eexists. split; [reflexivity|].
  split.
  { simpl. now rewrite <- !app_assoc. }
  split.
  { unfold session_setup. eexists. split; [reflexivity|].
    destruct (cafile args) as [f|]; [destruct (truthy_opt (Some f))|];
      eauto. }
  split; [exact F|]. split.
  { unfold shutdown. apply Forall_app. split.
    - apply Forall_forall. intros e He. apply repeat_spec in He. now subst e.
    - now repeat constructor. }
  rewrite !filter_app, (filter_silent served F), filter_shutdown.
  unfold session_setup.
  destruct (cafile args) as [f|]; [destruct (truthy_opt (Some f))|];
    reflexivity.
Qed.

End Lifecycle.

(** ** Concrete messages *)

Lemma one_second_is_one :
  exists q, one_second = ESleep q /\ (q == 1)%Q.
Proof. eexists. split; reflexivity. Qed.

(** The end anchor of the motor pattern lets a final newline through. *)
Lemma re_motor_match_final_newline :
  re_motor_match (demo_args 0 false) ("farm/F1/motor/M7/control" ++ newline)
  = Some "M7" /\
  re_motor_match (demo_args 0 false) "farm/F1/motor/M7/control" = Some "M7" /\
  re_motor_match (demo_args 0 false) "farm/F1/motor/M7/x/control" = None /\
  re_motor_match (demo_args 0 false) "farm/F1/motor//control" = None.
Proof. repeat split. Qed.

(** C1, at concrete inputs: a well-typed Device command is dropped or
    answered once, and with drop rate 1 a Pivot command leaves the log
    empty. *)
Lemma C1_witness :
  drop_or_one_reply (demo_args 0 false) HDevice (device_reboot "SN-1")
    demo_world /\
  log (snd (on_message (demo_args 1 false) "farm/F1/control"
              (qq "{'type':'PIVOT_CMD','corr':'abc123','run':'START'}")
              demo_world)) = [].
Proof.
  split.
  - apply (proj1 (C1_drop_check_then_one_reply (demo_args 0 false))
             HDevice (device_reboot "SN-1") demo_world "device_sim_1000");
      reflexivity.
  - apply (proj2 (C1_drop_check_then_one_reply (demo_args 1 false))
             "farm/F1/control"
             (qq "{'type':'PIVOT_CMD','corr':'abc123','run':'START'}")
             demo_world).
    + unfold Qle; simpl; lia.
    + intro i. split; [unfold Qle|unfold Qlt]; simpl; lia.
Defined.

(** C1 fails as stated: a Pivot command whose [run] is the JSON value true
    is dispatched and not dropped, and the handler waits and then raises
    AttributeError, so nothing is published. *)
Lemma C1_counterexample :
  json_loads pivot_run_true_text = Some pivot_run_true /\
  on_message (demo_args 0 false) "farm/F1/control" pivot_run_true_text
    demo_world =
  (Raised (AttributeError "bool" "lower"),
   advance 2 [one_second] demo_world) /\
  drop_decision (demo_args 0 false) demo_world = false /\
  ~ drop_or_one_reply (demo_args 0 false) HPivot pivot_run_true demo_world.
Proof.
  split; [reflexivity|]. split; [reflexivity|]. split; [reflexivity|].
  intros [_ H]. destruct (H eq_refl) as (e & _ & _ & E).
  discriminate E.
Qed.

(** C2 fails as stated: the inbound [corr] 0 is answered with the empty
    str. *)
Lemma C2_counterexample :
  json_loads pivot_corr_zero_text = Some pivot_corr_zero /\
  log (snd (on_message (demo_args 0 false) "farm/F1/control"
              pivot_corr_zero_text demo_world)) =
  [one_second;
   EPublish "farm/F1/ack"
     (JObj [("corr", JStr ""); ("ok", JBool true);
            ("note", JStr "pivot start accepted")]) 0 false] /\
  ~ Forall (echoes_inbound_corr pivot_corr_zero)
      (log (snd (on_message (demo_args 0 false) "farm/F1/control"
                   pivot_corr_zero_text demo_world))).
Proof.
  split; [reflexivity|]. split; [reflexivity|].
  intro F. apply Forall_forall with
    (x := EPublish "farm/F1/ack"
            (JObj [("corr", JStr ""); ("ok", JBool true);
                   ("note", JStr "pivot start accepted")]) 0 false) in F.
  - discriminate F.
  - right. left. reflexivity.
Qed.

(** C3, at concrete inputs: START_MOTOR for motor M7 is answered on the err
    topic of M7 when the toggle is on and on its ack topic when it is off. *)
Lemma C3_witness :
  dispatch (demo_args 0 true) "farm/F1/motor/M7/control"
    (motor_start "START_MOTOR") demo_world =
  (Done tt,
   advance 2
     [one_second;
      EPublish "farm/F1/motor/M7/err"
        (JObj [("corr", JStr "c7"); ("ok", JBool false);
               ("reason", JStr "sim motor fault")]) 0 false] demo_world) /\
  dispatch (demo_args 0 false) "farm/F1/motor/M7/control"
    (motor_start "START_MOTOR") demo_world =
  (Done tt,
   advance 2
     [one_second;
      EPublish "farm/F1/motor/M7/ack"
        (JObj [("corr", JStr "c7"); ("ok", JBool true);
               ("note", JStr "sim motor ok")]) 0 false] demo_world).
Proof.
  split.
  - exact (C3_motor_fault_is_case_insensitive (demo_args 0 true) "M7"
             (motor_start "START_MOTOR") demo_world "device_sim_1000"
             eq_refl eq_refl eq_refl eq_refl eq_refl).
  - exact (C3_motor_fault_is_case_insensitive (demo_args 0 false) "M7"
             (motor_start "START_MOTOR") demo_world "device_sim_1000"
             eq_refl eq_refl eq_refl eq_refl eq_refl).
Defined.

(** C3 fails as stated: with the toggle on, the command start_motor, which
    is not equal to START_MOTOR, is answered with the motor fault. *)
Lemma C3_counterexample :
  eq_str (field (motor_start "start_motor") "command") "START_MOTOR" = false /\
  dispatch (demo_args 0 true) "farm/F1/motor/M7/control"
    (motor_start "start_motor") demo_world =
  motor_reply (demo_args 0 true) true "M7" (motor_start "start_motor")
    demo_world /\
  dispatch (demo_args 0 true) "farm/F1/motor/M7/control"
    (motor_start "start_motor") demo_world <>
  motor_reply (demo_args 0 true)
    (motor_fail (demo_args 0 true)
     && eq_str (field (motor_start "start_motor") "command") "START_MOTOR")
    "M7" (motor_start "start_motor") demo_world.
Proof.
  split; [reflexivity|]. split; [reflexivity|].
  intro E. discriminate E.
Qed.

(** C4, at concrete inputs: an empty serial is answered with the err
    [missing action/serial], a filled one with the ack [REBOOT ok]. *)
Lemma C4_witness :
  handle_device_cmd (demo_args 0 false) (device_reboot "") demo_world =
  (Done tt,
   advance 2
     [one_second;
      EPublish "farm/F1/err"
        (JObj [("corr", JStr "c2"); ("ok", JBool false);
               ("reason", JStr "missing action/serial")]) 0 false]
     demo_world) /\
  handle_device_cmd (demo_args 0 false) (device_reboot "SN-1") demo_world =
  (Done tt,
   advance 2
     [one_second;
      EPublish "farm/F1/ack"
        (JObj [("corr", JStr "c2"); ("ok", JBool true);
               ("note", JStr "REBOOT ok")]) 0 false] demo_world).
Proof.
  split.
  - exact (C4_device_validation_strips_serial (demo_args 0 false)
             (device_reboot "") demo_world "device_sim_1000"
             eq_refl eq_refl eq_refl).
  - exact (C4_device_validation_strips_serial (demo_args 0 false)
             (device_reboot "SN-1") demo_world "device_sim_1000"
             eq_refl eq_refl eq_refl).
Defined.

(** C4 fails as stated: a serial made of one space is neither empty nor
    missing, and the command is answered with the err, not with an ack. *)
Lemma C4_counterexample :
  empty_or_absent (field_opt (device_reboot " ") "action")
  || empty_or_absent (field_opt (device_reboot " ") "serial") = false /\
  handle_device_cmd (demo_args 0 false) (device_reboot " ") demo_world =
  device_reply (demo_args 0 false) true (device_reboot " ") demo_world /\
  handle_device_cmd (demo_args 0 false) (device_reboot " ") demo_world <>
  device_reply (demo_args 0 false)
    (empty_or_absent (field_opt (device_reboot " ") "action")
     || empty_or_absent (field_opt (device_reboot " ") "serial"))
    (device_reboot " ") demo_world.
Proof.
  split; [reflexivity|]. split; [reflexivity|].
  intro E. discriminate E.
Qed.

(** C5 fails on the code: the payload [[]] is valid JSON, so it passes the
    parse guard, and on the control topic [data.get] then raises
    AttributeError out of the callback; the same payload on a topic of no
    category is discarded. *)
Theorem C5_non_object_payload_raises :
  json_loads "[]" = Some (JArr []) /\
  on_message (demo_args 0 false) "farm/F1/control" "[]" demo_world =
  (Raised (AttributeError "list" "get"), demo_world) /\
  on_message (demo_args 0 false) "farm/F1/device" "[]" demo_world =
  (Raised (AttributeError "list" "get"), demo_world) /\
  on_message (demo_args 0 false) "farm/F1/motor/M7/control" "[]" demo_world =
  (Raised (AttributeError "list" "get"), demo_world) /\
  on_message (demo_args 0 false) "farm/F1/other" "[]" demo_world =
  (Done tt, demo_world).
Proof. repeat split. Qed.

(** C6, at concrete inputs: corr abc123 and run START are answered by the
    single ack with note [pivot start accepted]. *)
Lemma C6_witness :
  handle_pivot_cmd (demo_args 0 false) pivot_start demo_world =
  (Done tt,
   advance 2
     [one_second;
      EPublish "farm/F1/ack"
        (JObj [("corr", JStr "abc123"); ("ok", JBool true);
               ("note", JStr "pivot start accepted")]) 0 false] demo_world).
Proof.
  exact (proj1 (C6_pivot_ack_for_str_run (demo_args 0 false))
           pivot_start demo_world "device_sim_1000"
           eq_refl eq_refl eq_refl).
Defined.

(** C6 fails as stated: a Pivot command whose [run] is the JSON value true
    is not dropped and gets no ack, whatever the note. *)
Lemma C6_counterexample :
  handle_pivot_cmd (demo_args 0 false) pivot_run_true demo_world =
  (Raised (AttributeError "bool" "lower"),
   advance 2 [one_second] demo_world) /\
  ~ (exists note,
       handle_pivot_cmd (demo_args 0 false) pivot_run_true demo_world =
       pivot_reply (demo_args 0 false) note pivot_run_true demo_world).
Proof.
  split; [reflexivity|]. intros [note E]. discriminate E.
Qed.

(** C7, at concrete inputs: the calls of [on_connect] for farm F1. *)
Lemma C7_witness :
  on_connect (demo_args 0 false) 0 demo_world =
  (Done tt,
   advance 0
     [EPublish "farm/F1/status" (JObj [("message", JStr "Online")]) 1 true;
      EPublish "farm/F1/device/status"
        (JObj [("message", JStr "Running")]) 0 false;
      ESubscribe "farm/F1/control" 0;
      ESubscribe "farm/F1/device" 0;
      ESubscribe "farm/F1/motor/+/control" 0] demo_world).
Proof.
  exact (C7_presence_then_subscriptions (demo_args 0 false) demo_world
           "device_sim_1000" eq_refl).
Defined.

(** C9 fails as stated: the inbound [corr] 5 is echoed as the number 5, so
    the published [corr] is not a str. *)
Lemma C9_counterexample :
  log (snd (on_message (demo_args 0 false) "farm/F1/control"
              pivot_corr_five_text demo_world)) =
  [one_second;
   EPublish "farm/F1/ack"
     (JObj [("corr", JInt 5); ("ok", JBool true);
            ("note", JStr "pivot start accepted")]) 0 false] /\
  ~ Forall corr_is_str
      (log (snd (on_message (demo_args 0 false) "farm/F1/control"
                   pivot_corr_five_text demo_world))).
Proof.
  split; [reflexivity|].
  intro F. apply Forall_forall with
    (x := EPublish "farm/F1/ack"
            (JObj [("corr", JInt 5); ("ok", JBool true);
                   ("note", JStr "pivot start accepted")]) 0 false) in F.
  - destruct F as [s E]. discriminate E.
  - right. left. reflexivity.
Qed.

(** ** Fault injection *)

Section FaultInjection.

Context {R : PyRuntime}.
Variable args : Args.

Lemma py_max_zero (x : Q) : (0 <= py_max 0 x)%Q /\ (x <= py_max 0 x)%Q.
Proof.
  unfold py_max. destruct (Qltb 0 x) eqn:E.
  - apply Qltb_true in E. split; lra.
  - assert (~ (0 < x)%Q) by (intro L; apply Qltb_true in L; congruence).
    split; lra.
Qed.

Lemma py_max_zero_le (x : Q) : (0 <= x)%Q -> (py_max 0 x == x)%Q.
Proof.
  intro H. unfold py_max. destruct (Qltb 0 x) eqn:E; [reflexivity|].
  assert (~ (0 < x)%Q) by (intro L; apply Qltb_true in L; congruence).
  lra.
Qed.

Lemma py_max_zero_ge (x : Q) : (x <= 0)%Q -> (py_max 0 x == 0)%Q.
Proof.
  intro H. unfold py_max. destruct (Qltb 0 x) eqn:E; [|reflexivity].
  apply Qltb_true in E. lra.
Qed.

Lemma py_min_one (x : Q) :
  (py_min 1 x <= 1)%Q /\ (py_min 1 x <= x)%Q /\
  ((x <= 1)%Q -> (py_min 1 x == x)%Q) /\ ((1 <= x)%Q -> (py_min 1 x == 1)%Q).
Proof.
  unfold py_min. destruct (Qltb x 1) eqn:E.
  - apply Qltb_true in E. repeat split; lra.
  - assert (~ (x < 1)%Q) by (intro L; apply Qltb_true in L; congruence).
    repeat split; lra.
Qed.


End FaultInjection.

Section DropRate.

Context {R : PyRuntime}.
Variable args : Args.

(** X2.  The drop threshold is the drop rate clamped to [0, 1]: it always
    lies in that interval, it is the rate itself when the rate lies there,
    0 for a rate below and 1 for a rate above; and [_maybe_drop] answers yes
    exactly when the draw is strictly below it. *)
Theorem X2_drop_threshold_is_clamped_rate :
  (0 <= drop_threshold args <= 1)%Q /\
  ((0 <= drop_rate args <= 1)%Q ->
   (drop_threshold args == drop_rate args)%Q) /\
  ((drop_rate args <= 0)%Q -> (drop_threshold args == 0)%Q) /\
  ((1 <= drop_rate args)%Q -> (drop_threshold args == 1)%Q) /\
  (forall w,
     maybe_drop args w = (Done true, advance 1 [] w) <->
     (draws w (cursor w) < drop_threshold args)%Q).
Proof.
  unfold drop_threshold.
  destruct (py_min_one (drop_rate args)) as (M1 & M2 & M3 & M4).
  destruct (py_max_zero (py_min 1 (drop_rate args))) as [Z0 Z1].
  set (m := py_min 1 (drop_rate args)) in *.
  assert (U : (py_max 0 m <= 1)%Q).
  { unfold py_max. destruct (Qltb 0 m); lra. }
  split; [split; assumption|]. split.
  { intros [P0 P1]. rewrite py_max_zero_le; [now apply M3|]. rewrite M3; lra. }
  split.
  { intro P. apply py_max_zero_ge. lra. }
  split.
  { intro P. rewrite py_max_zero_le; [now apply M4|]. rewrite M4; lra. }
  intro w. rewrite maybe_drop_run. unfold drop_decision, drop_threshold.
  fold m. rewrite <- Qltb_true. split.
  - intro E. now inversion E.
  - now intros ->.
Qed.

Lemma never_drops w :
  (drop_rate args <= 0)%Q ->
  (0 <= draws w (cursor w))%Q ->
  drop_decision args w = false.
Proof.
  intros Hp Hu. destruct (drop_decision args w) eqn:E; [|reflexivity].
  unfold drop_decision, drop_threshold in E. apply Qltb_true in E.
  destruct (py_min_one (drop_rate args)) as (_ & M2 & _).
  assert (Z : (py_max 0 (py_min 1 (drop_rate args)) == 0)%Q)
    by (apply py_max_zero_ge; lra).
  lra.
Qed.

End DropRate.

(** ** Strings and topics *)

Lemma append_assoc (a b c : string) : ((a ++ b) ++ c = a ++ b ++ c)%string.
Proof. induction a as [|x a IH]; simpl; [reflexivity|]. now rewrite IH. Qed.

Lemma length_append (a b : string) :
  String.length (a ++ b) = (String.length a + String.length b)%nat.
Proof. induction a as [|x a IH]; simpl; [reflexivity|]. now rewrite IH. Qed.

Lemma append_inv_head (p x y : string) :
  (p ++ x = p ++ y)%string -> x = y.
Proof.
  intro H. apply String.eqb_eq. rewrite <- (eqb_app_cancel p).
  now apply String.eqb_eq.
Qed.

Lemma append_inv_tail (x y t : string) :
  (x ++ t = y ++ t)%string -> x = y.
Proof.
  revert y. induction x as [|a x IH]; intros [|b y] H; simpl in H.
  - reflexivity.
  - apply (f_equal String.length) in H. simpl in H.
    rewrite length_append in H. lia.
  - apply (f_equal String.length) in H. simpl in H.
    rewrite length_append in H. lia.
  - inversion H. f_equal. now apply IH.
Qed.

Lemma strip_prefix_sound p s r :
  strip_prefix p s = Some r -> s = (p ++ r)%string.
Proof.
  revert s. induction p as [|a p IH]; intros s H; simpl in H.
  - now inversion H.
  - destruct s as [|b s]; [discriminate H|].
    destruct (Ascii.eqb_spec a b) as [->|]; [|discriminate H].
    simpl. f_equal. now apply IH.
Qed.

Lemma span_segment_sound s seg rest :
  span_segment s = (seg, rest) ->
  s = (seg ++ rest)%string /\ no_slash seg = true.
Proof.
  revert seg rest. induction s as [|c s IH]; intros seg rest H; simpl in H.
  - inversion H. now split.
  - destruct (Ascii.eqb c "/") eqn:E.
    + inversion H. now split.
    + destruct (span_segment s) as [seg' rest'] eqn:S. inversion H; subst.
      destruct (IH seg' rest eq_refl) as [-> N]. split; [reflexivity|].
      simpl. now rewrite E, N.
Qed.

Section MotorTopics.

Context {R : PyRuntime}.
Variable args : Args.

Lemma re_motor_match_sound topic m :
  re_motor_match args topic = Some m ->
  segment m = true /\
  (topic = motor_control_topic args m \/
   topic = (motor_control_topic args m ++ newline)%string).
Proof.
  unfold re_motor_match, farm. intro H.
  destruct (strip_prefix _ topic) as [r|] eqn:P; [|discriminate H].
  apply strip_prefix_sound in P.
  destruct (span_segment r) as [seg rest] eqn:S.
  apply span_segment_sound in S. destruct S as [-> N].
  destruct (seg =? "")%string eqn:E; [discriminate H|].
  destruct ((rest =? "/control")%string
            || (rest =? "/control" ++ newline)%string) eqn:T;
    [|discriminate H].
  inversion H; subst seg. split.
  { unfold segment. now rewrite E, N. }
  apply orb_true_iff in T. unfold motor_control_topic.
  destruct T as [T|T]; apply String.eqb_eq in T; subst rest topic.
  - left. now rewrite !append_assoc.
  - right. now rewrite !append_assoc.
Qed.

(** X3.  The motor pattern matches exactly the control topics of one motor
    level: a topic matches with identifier [m] if and only if [m] is not
    empty, has no slash, and the topic is [farm/<F>/motor/<m>/control],
    possibly followed by one final newline.  So the identifier that is
    extracted is the one the topic was built from. *)
Theorem X3_motor_pattern_round_trip (topic m : string) :
  re_motor_match args topic = Some m <->
  segment m = true /\
  (topic = motor_control_topic args m \/
   topic = (motor_control_topic args m ++ newline)%string).
Proof.
  split.
  - apply re_motor_match_sound.
  - intros [Hm [->| ->]].
    + now apply re_motor_match_control.
    + unfold segment in Hm. apply andb_true_iff in Hm. destruct Hm as [E N].
      unfold re_motor_match, motor_control_topic, farm.
      rewrite !append_assoc.
      change ("farm/" ++ farm_id args ++ "/motor/" ++ m ++ "/control"
              ++ newline)%string
        with ("farm/" ++ (farm_id args ++ "/motor/" ++ m ++ "/control"
                          ++ newline))%string.
      change ("farm/" ++ farm_id args ++ "/motor/")%string
        with ("farm/" ++ (farm_id args ++ "/motor/"))%string.
      rewrite strip_prefix_app_app, strip_prefix_app_app.
      rewrite (strip_prefix_app "/motor/").
      change (m ++ "/control" ++ newline)%string
        with (m ++ String "/" ("control" ++ newline))%string.
      rewrite (span_segment_app m ("control" ++ newline) N).
      apply negb_true_iff in E. rewrite E. reflexivity.
Qed.

End MotorTopics.

Lemma append_last_char (x y : string) (a b : ascii) :
  (x ++ String a "" = y ++ String b "")%string -> a = b.
Proof.
  revert y. induction x as [|c x IH]; intros [|d y] H; simpl in H.
  - now inversion H.
  - inversion H as [[E1 E2]]. destruct y; discriminate E2.
  - inversion H as [[E1 E2]]. destruct x; discriminate E2.
  - inversion H. eauto.
Qed.

Section Topics.

Context {R : PyRuntime}.
Variable args : Args.

Lemma eqb_farm_cancel (x y : string) :
  ("farm/" ++ farm_id args ++ x =? "farm/" ++ farm_id args ++ y)%string
  = (x =? y)%string.
Proof.
  change ("farm/" ++ farm_id args ++ x)%string
    with ("farm/" ++ (farm_id args ++ x))%string.
  change ("farm/" ++ farm_id args ++ y)%string
    with ("farm/" ++ (farm_id args ++ y))%string.
  now rewrite !eqb_app_cancel.
Qed.

Lemma strip_farm_cancel (q r : string) :
  strip_prefix ("farm/" ++ farm_id args ++ q) ("farm/" ++ farm_id args ++ r)
  = strip_prefix q r.
Proof.
  change ("farm/" ++ farm_id args ++ q)%string
    with ("farm/" ++ (farm_id args ++ q))%string.
  change ("farm/" ++ farm_id args ++ r)%string
    with ("farm/" ++ (farm_id args ++ r))%string.
  now rewrite !strip_prefix_app_app.
Qed.

Lemma farm_suffix_inj (x y : string) :
  ("farm/" ++ farm_id args ++ x = "farm/" ++ farm_id args ++ y)%string ->
  x = y.
Proof.
  intro H. apply String.eqb_eq. rewrite <- eqb_farm_cancel.
  now apply String.eqb_eq.
Qed.

(** X4.  Whatever the farm identifier, the seven topics derived from it are
    pairwise distinct; the ack topics of two motors coincide only for the
    same motor identifier, likewise the err topics; and no motor's ack topic
    is a motor's err topic. *)
Theorem X4_topics_do_not_collide :
  NoDup (fixed_topics args) /\
  (forall m1 m2, t_motor_ack args m1 = t_motor_ack args m2 -> m1 = m2) /\
  (forall m1 m2, t_motor_err args m1 = t_motor_err args m2 -> m1 = m2) /\
  (forall m1 m2, t_motor_ack args m1 <> t_motor_err args m2).
Proof.
  split.
  { change (fixed_topics args)
      with (map (fun x => "farm/" ++ farm_id args ++ x)%string
              ["/status"; "/device/status"; "/control"; "/device";
               "/motor/+/control"; "/ack"; "/err"]%string).
    apply Injective_map_NoDup.
    - intros x y. apply farm_suffix_inj.
    - repeat (constructor; [simpl; intuition discriminate|]). constructor. }
  split; [|split].
  - intros m1 m2 H. apply farm_suffix_inj in H.
    apply (append_inv_head "/motor/") in H.
    now apply append_inv_tail in H.
  - intros m1 m2 H. apply farm_suffix_inj in H.
    apply (append_inv_head "/motor/") in H.
    now apply append_inv_tail in H.
  - intros m1 m2 H. apply farm_suffix_inj in H.
    apply (append_inv_head "/motor/") in H.
    change "/ack"%string with ("/ac" ++ "k")%string in H.
    change "/err"%string with ("/er" ++ "r")%string in H.
    rewrite <- !append_assoc in H. apply append_last_char in H.
    discriminate H.
Qed.

Lemma dispatch_unrouted topic :
  (topic =? t_control args)%string = false ->
  (topic =? t_device args)%string = false ->
  re_motor_match args topic = None ->
  unrouted args topic.
Proof.
  intros Hc Hd Hm data w. unfold dispatch, topic_and_type, bind, ret.
  now rewrite Hc, Hd, Hm.
Qed.

Lemma control_is_not_device :
  (t_device args =? t_control args)%string = false.
Proof. unfold t_device, t_control, farm. now rewrite eqb_farm_cancel. Qed.

Lemma fixed_topic_no_motor (sfx : string) :
  strip_prefix "/motor/" sfx = None ->
  re_motor_match args ("farm/" ++ farm_id args ++ sfx) = None.
Proof.
  intro H. unfold re_motor_match, farm. now rewrite strip_farm_cancel, H.
Qed.

Lemma motor_reply_topic_no_motor m (sfx : string) :
  no_slash m = true ->
  (String "/" sfx =? "/control")%string = false ->
  (String "/" sfx =? "/control" ++ newline)%string = false ->
  re_motor_match args
    ("farm/" ++ farm_id args ++ "/motor/" ++ m ++ String "/" sfx) = None.
Proof.
  intros N H1 H2. unfold re_motor_match, farm.
  rewrite strip_farm_cancel, (strip_prefix_app "/motor/").
  rewrite (span_segment_app m sfx N), H1, H2.
  now destruct (m =? "")%string.
Qed.

(** Every topic the simulator publishes on is one on which no payload
    reaches a handler. *)
Lemma published_topics_unrouted :
  unrouted args (t_status args) /\
  unrouted args (t_dev_status args) /\
  unrouted args (t_ack args) /\
  unrouted args (t_err args) /\
  (forall m, segment m = true -> unrouted args (t_motor_ack args m)) /\
  (forall m, segment m = true -> unrouted args (t_motor_err args m)).
Proof.
  repeat split;
    try (apply dispatch_unrouted;
         [ unfold t_status, t_dev_status, t_ack, t_err, t_control, farm;
           now rewrite eqb_farm_cancel
         | unfold t_status, t_dev_status, t_ack, t_err, t_device, farm;
           now rewrite eqb_farm_cancel
         | now apply fixed_topic_no_motor ]).
  - intros m Hm. unfold segment in Hm. apply andb_true_iff in Hm.
    destruct Hm as [_ N]. apply dispatch_unrouted.
    + unfold t_motor_ack, t_control, farm. now rewrite eqb_farm_cancel.
    + unfold t_motor_ack, t_device, farm. now rewrite eqb_farm_cancel.
    + now apply (motor_reply_topic_no_motor m "ack").
  - intros m Hm. unfold segment in Hm. apply andb_true_iff in Hm.
    destruct Hm as [_ N]. apply dispatch_unrouted.
    + unfold t_motor_err, t_control, farm. now rewrite eqb_farm_cancel.
    + unfold t_motor_err, t_device, farm. now rewrite eqb_farm_cancel.
    + now apply (motor_reply_topic_no_motor m "err").
Qed.

End Topics.

(** ** Routing *)

Section Routing.

Context {R : PyRuntime}.
Variable args : Args.

Lemma typed_is_dict data name :
  eq_str (field data "type") name = true -> exists kvs, data = JObj kvs.
Proof. destruct data; try discriminate. now eexists. Qed.

Lemma topic_and_type_true data name w :
  eq_str (field data "type") name = true ->
  topic_and_type true data name w = (Done true, w).
Proof.
  intro H. destruct (typed_is_dict _ _ H) as [kvs ->].
  unfold topic_and_type, bind. rewrite dict_get_field. unfold ret.
  now rewrite H.
Qed.

Lemma control_no_motor : re_motor_match args (t_control args) = None.
Proof. unfold t_control, farm. now apply fixed_topic_no_motor. Qed.

Lemma device_no_motor : re_motor_match args (t_device args) = None.
Proof. unfold t_device, farm. now apply fixed_topic_no_motor. Qed.

(** X5.  A payload whose [type] names the category of the topic it arrives
    on is handed to the handler of that category and to no other: PIVOT_CMD
    on the control topic, DEVICE_CMD on the device topic, and MOTOR_CMD on
    the control topic of motor [m], with [m] as the motor identifier. *)
Theorem X5_dispatch_routes_matching_type (data : json) (w : world) :
  (eq_str (field data "type") "PIVOT_CMD" = true ->
   dispatch args (t_control args) data w = handle_pivot_cmd args data w) /\
  (eq_str (field data "type") "DEVICE_CMD" = true ->
   dispatch args (t_device args) data w = handle_device_cmd args data w) /\
  (forall m,
     segment m = true ->
     eq_str (field data "type") "MOTOR_CMD" = true ->
     dispatch args (motor_control_topic args m) data w =
     handle_motor_cmd args m data w).
Proof.
  repeat split.
  - intro H. unfold dispatch. rewrite String.eqb_refl.
    unfold bind at 1. now rewrite (topic_and_type_true _ _ _ H).
  - intro H. unfold dispatch.
    rewrite control_is_not_device, String.eqb_refl.
    unfold bind at 1. unfold topic_and_type at 1. unfold ret at 1.
    unfold bind at 1. now rewrite (topic_and_type_true _ _ _ H).
  - intros m Hm H. destruct (typed_is_dict _ _ H) as [kvs ->].
    now apply dispatch_motor.
Qed.

(** X6.  Nothing is answered outside the three categories.  A dict whose
    [type] is not the one of the topic it arrives on (another category's,
    a missing one, a value that is not a str) is discarded on the control
    topic, on the device topic and on every motor control topic; and on a
    topic of no category every payload is discarded, dict or not. *)
Theorem X6_dispatch_discards_mismatch (kvs : list (string * json))
  (w : world) :
  (eq_str (field (JObj kvs) "type") "PIVOT_CMD" = false ->
   dispatch args (t_control args) (JObj kvs) w = (Done tt, w)) /\
  (eq_str (field (JObj kvs) "type") "DEVICE_CMD" = false ->
   dispatch args (t_device args) (JObj kvs) w = (Done tt, w)) /\
  (forall m,
     segment m = true ->
     eq_str (field (JObj kvs) "type") "MOTOR_CMD" = false ->
     dispatch args (motor_control_topic args m) (JObj kvs) w = (Done tt, w)) /\
  (forall topic data,
     topic <> t_control args -> topic <> t_device args ->
     re_motor_match args topic = None ->
     dispatch args topic data w = (Done tt, w)).
Proof.
  repeat split.
  - intro H. apply dispatch_unrecognised.
    + now rewrite H, andb_false_r.
    + rewrite String.eqb_sym, control_is_not_device. reflexivity.
    + now rewrite control_no_motor.
  - intro H. apply dispatch_unrecognised.
    + now rewrite control_is_not_device.
    + now rewrite H, andb_false_r.
    + now rewrite device_no_motor.
  - intros m Hm H. apply dispatch_unrecognised.
    + now rewrite motor_topic_not_control.
    + now rewrite motor_topic_not_device.
    + now rewrite (re_motor_match_control args m Hm).
  - intros topic data Hc Hd Hm. apply dispatch_unrouted; [| |exact Hm].
    + now apply String.eqb_neq.
    + now apply String.eqb_neq.
Qed.

Lemma dispatch_sends_routable (Q : event -> Prop) topic data :
  (forall h,
     match h with HMotor m => segment m = true | _ => True end ->
     sends Q (run_handler args h data)) ->
  sends Q (dispatch args topic data).
Proof.
  intro H. unfold dispatch.
  apply sends_bind; [apply topic_and_type_sends|]. intros [|].
  { exact (H HPivot I). }
  apply sends_bind; [apply topic_and_type_sends|]. intros [|].
  { exact (H HDevice I). }
  destruct (re_motor_match args topic) as [m|] eqn:E; [|apply sends_ret].
  apply sends_bind; [apply topic_and_type_sends|]. intros [|].
  - apply (H (HMotor m)). now apply (re_motor_match_sound args topic m).
  - apply sends_ret.
Qed.

(** X7.  Whatever callback runs, each call it makes is a wait, a
    subscription or a publish, and every publish goes to a topic on which
    no payload reaches a handler.  The simulator therefore never answers
    one of its own messages, even if the broker delivered it back. *)
Theorem X7_publications_are_never_routed_back (cb : callback) :
  sends
    (fun e =>
       match e with
       | EPublish topic _ _ _ => unrouted args topic
       | ESleep _ => True
       | ESubscribe _ _ => True
       | _ => False
       end)
    (run_callback args cb).
Proof.
  destruct (published_topics_unrouted args) as (U1 & U2 & U3 & U4 & U5 & U6).
  destruct cb as [rc|topic payload|rc]; simpl.
  - unfold on_connect. destruct (rc =? 0); [|apply sends_ret].
    apply sends_bind; [now apply sends_publish|]. intros _.
    apply sends_bind; [now apply sends_publish|]. intros _.
    unfold subscribe_each.
    repeat (apply sends_bind; [now apply sends_emit|]; intros _).
    apply sends_ret.
  - unfold on_message.
    destruct (json_loads _) as [data|]; [|apply sends_ret].
    apply dispatch_sends_routable. intros h Hh.
    apply run_handler_sends; [exact (fun _ => I)| |];
      intros; destruct h; simpl; auto.
  - apply sends_ret.
Qed.

End Routing.

(** ** One message, at most one reply *)

Section Effects.

Context {R : PyRuntime}.
Variable args : Args.

Lemma effect_none (o : outcome unit) w :
  exists o' n es, (o, w) = (o', advance n es w) /\ one_message_effect o' n es.
Proof.
  exists o, 0%nat, []. rewrite advance_zero. split; [reflexivity|].
  left. split; [reflexivity|lia].
Qed.

Lemma effect_dropped w :
  exists o n es,
    (Done tt, advance 1 [] w) = (o, advance n es w) /\
    one_message_effect o n es.
Proof.
  exists (Done tt), 1%nat, []. split; [reflexivity|].
  left. split; [reflexivity|lia].
Qed.

Lemma effect_raised_after_wait e w :
  exists o n es,
    (@Raised unit e, advance 2 [wait args w] w) = (o, advance n es w) /\
    one_message_effect o n es.
Proof.
  exists (Raised e), 2%nat, [wait args w]. split; [reflexivity|].
  right. left. now exists (delay args (draws w (cursor w + 1))), e.
Qed.

Lemma effect_publish_after_wait topic obj w :
  exists o n es,
    publish topic obj 0 false (advance 2 [wait args w] w)
    = (o, advance n es w) /\
    one_message_effect o n es.
Proof.
  destruct (client w) as [c|] eqn:E.
  - rewrite (publish_after_wait args topic obj w c E).
    exists (Done tt), 2%nat, [wait args w; EPublish topic obj 0 false].
    split; [reflexivity|]. right. right.
    now exists (delay args (draws w (cursor w + 1))), topic, obj.
  - unfold publish. simpl client. rewrite E.
    apply effect_raised_after_wait.
Qed.

Lemma handler_effect h d w :
  exists o n es,
    run_handler args h d w = (o, advance n es w) /\
    one_message_effect o n es.
Proof.
  destruct d; try (destruct h; apply effect_none).
  destruct h; simpl run_handler.
  - unfold handle_pivot_cmd. unfold bind at 1. rewrite lookup_dict_get.
    rewrite after_drop_check.
    destruct (drop_decision args w); [apply effect_dropped|].
    unfold bind at 1. rewrite lookup_dict_get. unfold bind at 1.
    destruct (match lookup "run" kvs with Some v => v | None => JStr "" end);
      try apply effect_raised_after_wait.
    apply effect_publish_after_wait.
  - unfold handle_device_cmd.
    unfold bind at 1. rewrite dict_get_field.
    unfold bind at 1. rewrite dict_get_field.
    unfold bind at 1.
    destruct (py_or (field (JObj kvs) "action") (JStr ""));
      try apply effect_none.
    simpl str_method. unfold ret at 1.
    unfold bind at 1. rewrite dict_get_field.
    unfold bind at 1.
    destruct (py_or (field (JObj kvs) "serial") (JStr ""));
      try apply effect_none.
    simpl str_method. unfold ret at 1.
    rewrite after_drop_check.
    destruct (drop_decision args w); [apply effect_dropped|].
    destruct (_ || _)%bool; apply effect_publish_after_wait.
  - unfold handle_motor_cmd.
    unfold bind at 1. rewrite dict_get_field.
    unfold bind at 1. rewrite dict_get_field.
    unfold bind at 1.
    destruct (py_or (field (JObj kvs) "command") (JStr ""));
      try apply effect_none.
    simpl str_method. unfold ret at 1.
    rewrite after_drop_check.
    destruct (drop_decision args w); [apply effect_dropped|].
    destruct (_ && _)%bool; apply effect_publish_after_wait.
Qed.

Lemma dispatch_effect topic data w :
  exists o n es,
    dispatch args topic data w = (o, advance n es w) /\
    one_message_effect o n es.
Proof.
  unfold dispatch. unfold bind at 1.
  destruct (topic_and_type_pure (topic =? t_control args)%string data
              "PIVOT_CMD" w) as [[[|]|e] ->]; try apply effect_none.
  { exact (handler_effect HPivot data w). }
  unfold bind at 1.
  destruct (topic_and_type_pure (topic =? t_device args)%string data
              "DEVICE_CMD" w) as [[[|]|e] ->]; try apply effect_none.
  { exact (handler_effect HDevice data w). }
  destruct (re_motor_match args topic) as [m|]; [|apply effect_none].
  unfold bind at 1.
  destruct (topic_and_type_pure true data "MOTOR_CMD" w)
    as [[[|]|e] ->]; try apply effect_none.
  exact (handler_effect (HMotor m) data w).
Qed.

(** X8.  Whatever the topic and the payload, well formed or not, one
    inbound message has one of three effects: no call at all, at most one
    draw being read; a wait that ends in an exception; or a wait followed by
    exactly one publish, at QoS 0 and not retained, after which the callback
    returns.  It never publishes twice, and never without having waited. *)
Theorem X8_one_message_at_most_one_reply (topic payload : string)
  (w : world) :
  exists o n es,
    on_message args topic payload w = (o, advance n es w) /\
    one_message_effect o n es.
Proof.
  unfold on_message.
  destruct (json_loads _) as [data|]; [|apply effect_none].
  apply dispatch_effect.
Qed.

End Effects.

(** ** Mistyped fields *)

Section TypeErrors.

Context {R : PyRuntime}.
Variable args : Args.

Lemma str_method_mistyped name f v w :
  str_or_falsy v = false ->
  str_method name f (py_or v (JStr "")) w
  = (Raised (AttributeError (type_name v) name), w).
Proof.
  unfold str_or_falsy, py_or. intro H. apply orb_false_iff in H.
  destruct H as [Hs Ht]. apply negb_false_iff in Ht. rewrite Ht.
  destruct v; try discriminate Hs; reflexivity.
Qed.

(** X9.  The Device and Motor handlers read their fields before the drop
    check.  A truthy [action], [serial] or [command] that is not a str makes
    the handler raise AttributeError at once: no draw is read, nothing is
    waited for and nothing is published, whatever the drop rate. *)
Theorem X9_device_motor_type_error_precedes_drop (d : json) (w : world) :
  is_dict d = true ->
  (str_or_falsy (field d "action") = false ->
   handle_device_cmd args d w =
   (Raised (AttributeError (type_name (field d "action")) "upper"), w)) /\
  (str_or_falsy (field d "action") = true ->
   str_or_falsy (field d "serial") = false ->
   handle_device_cmd args d w =
   (Raised (AttributeError (type_name (field d "serial")) "strip"), w)) /\
  (forall m,
     str_or_falsy (field d "command") = false ->
     handle_motor_cmd args m d w =
     (Raised (AttributeError (type_name (field d "command")) "upper"), w)).
Proof.
  intro Hd. destruct d as [| | | | | | | |kvs]; try discriminate Hd.
  set (d := JObj kvs). repeat split.
  - intro H. unfold handle_device_cmd.
    unfold bind at 1. unfold d at 1. rewrite dict_get_field.
    unfold bind at 1. unfold d at 1. rewrite dict_get_field.
    unfold bind at 1. now rewrite (str_method_mistyped _ _ _ _ H).
  - intros Ha H. unfold handle_device_cmd.
    unfold bind at 1. unfold d at 1. rewrite dict_get_field.
    unfold bind at 1. unfold d at 1. rewrite dict_get_field.
    unfold bind at 1. rewrite (str_method_or _ _ _ _ Ha).
    unfold bind at 1. unfold d at 1. rewrite dict_get_field.
    unfold bind at 1. now rewrite (str_method_mistyped _ _ _ _ H).
  - intros m H. unfold handle_motor_cmd.
    unfold bind at 1. unfold d at 1. rewrite dict_get_field.
    unfold bind at 1. unfold d at 1. rewrite dict_get_field.
    unfold bind at 1. now rewrite (str_method_mistyped _ _ _ _ H).
Qed.

(** X10.  The Pivot handler reads [run] only after the drop check and the
    wait.  When [run] is present and not a str (null included), a dropped
    command is dropped without any error, and a command that is not dropped
    waits and then raises AttributeError, publishing nothing. *)
Theorem X10_pivot_type_error_follows_wait (kvs : list (string * json))
  (v : json) (w : world) :
  lookup "run" kvs = Some v ->
  is_str v = false ->
  handle_pivot_cmd args (JObj kvs) w =
  if drop_decision args w then (Done tt, advance 1 [] w)
  else (Raised (AttributeError (type_name v) "lower"),
        advance 2 [wait args w] w).
Proof.
  intros Hv Hs. unfold handle_pivot_cmd.
  unfold bind at 1. rewrite lookup_dict_get.
  rewrite after_drop_check.
  destruct (drop_decision args w); [reflexivity|].
  unfold bind at 1. rewrite lookup_dict_get, Hv.
  unfold bind. destruct v; try discriminate Hs; reflexivity.
Qed.

End TypeErrors.

(** ** Replies do not depend on history *)

Section Stateless.

Context {R : PyRuntime}.
Variable args : Args.

Lemma handler_reply_fixed h d :
  fields_ok h d = true ->
  exists e,
    (is_ack args h e \/ is_err args h e) /\
    forall w c,
      client w = Some c ->
      drop_decision args w = false ->
      run_handler args h d w = (Done tt, advance 2 [wait args w; e] w).
Proof.
  intro Hok.
  assert (Hd : is_dict d = true).
  { unfold fields_ok in Hok. now apply andb_true_iff in Hok. }
  destruct d; try discriminate Hd.
  destruct h; simpl run_handler.
  - eexists. split; [left; now do 2 eexists|].
    intros w c Hc Hdrop.
    now rewrite (pivot_run args kvs w c Hc Hok), Hdrop.
  - destruct ((str_upper (text_of (field (JObj kvs) "action")) =? "")%string
              || (str_strip (text_of (field (JObj kvs) "serial")) =? "")%string)
      eqn:E.
    + eexists. split; [right; now do 2 eexists|].
      intros w c Hc Hdrop.
      now rewrite (device_run args kvs w c Hc Hok), Hdrop, E.
    + eexists. split; [left; now do 2 eexists|].
      intros w c Hc Hdrop.
      now rewrite (device_run args kvs w c Hc Hok), Hdrop, E.
  - destruct (motor_fail args
              && (str_upper (text_of (field (JObj kvs) "command"))
                  =? "START_MOTOR")%string) eqn:E.
    + eexists. split; [right; now do 2 eexists|].
      intros w c Hc Hdrop.
      now rewrite (motor_run args motor_id kvs w c Hc Hok), Hdrop, E.
    + eexists. split; [left; now do 2 eexists|].
      intros w c Hc Hdrop.
      now rewrite (motor_run args motor_id kvs w c Hc Hok), Hdrop, E.
Qed.

(** X11.  The message that answers a well-typed command depends on the
    configuration and the command only, not on the world it is handled in:
    neither on the log nor on the draws.  Nothing is remembered between
    commands, so a command handled twice in a row, not dropped either time,
    is answered twice with the same message. *)
Theorem X11_replies_are_stateless (h : handler) (d : json) :
  fields_ok h d = true ->
  exists e,
    (is_ack args h e \/ is_err args h e) /\
    (forall w c,
       client w = Some c ->
       drop_decision args w = false ->
       run_handler args h d w = (Done tt, advance 2 [wait args w; e] w)) /\
    (forall w c,
       client w = Some c ->
       drop_decision args w = false ->
       drop_decision args (advance 2 [] w) = false ->
       (run_handler args h d ;;; run_handler args h d) w =
       (Done tt,
        advance 4
          [wait args w; e; wait args (advance 2 [] w); e] w)).
Proof.
  intro Hok. destruct (handler_reply_fixed h d Hok) as (e & He & Hrun).
  exists e. split; [exact He|]. split; [exact Hrun|].
  intros w c Hc H1 H2. unfold bind.
  rewrite (Hrun w c Hc H1).
  rewrite (Hrun (advance 2 [wait args w; e] w) c Hc H2).
  now rewrite advance_advance.
Qed.

(** X12.  With a drop rate of zero or less and draws that are not negative,
    no command is ever dropped: every command whose fields have the type its
    handler relies on is answered by the wait and one publish. *)
Theorem X12_rate_zero_always_answers (h : handler) (d : json) (w : world)
  (c : string) :
  (drop_rate args <= 0)%Q ->
  (0 <= draws w (cursor w))%Q ->
  client w = Some c ->
  fields_ok h d = true ->
  exists e,
    (is_ack args h e \/ is_err args h e) /\
    run_handler args h d w = (Done tt, advance 2 [wait args w; e] w).
Proof.
  intros Hp Hu Hc Hok.
  destruct (handler_reply_fixed h d Hok) as (e & He & Hrun).
  exists e. split; [exact He|].
  apply (Hrun w c Hc). now apply never_drops.
Qed.

End Stateless.

(** ** Connecting and shutting down *)

Section Session.

Context {R : PyRuntime}.
Variable args : Args.

(** When the broker refuses the connection (a result code other than 0),
    [_on_connect] publishes no presence and subscribes to nothing. *)
Lemma refused_connection_does_nothing (rc : Z) (w : world) :
  rc <> 0 -> on_connect args rc w = (Done tt, w).
Proof.
  intro H. unfold on_connect.
  destruct (Z.eqb_spec rc 0) as [E|_]; [contradiction|reflexivity].
Qed.



(** X14.  [run_forever] never raises and never publishes.  Interrupted after
    [ticks] sleeps of one second, it stops the loop and disconnects when the
    client exists, and does neither when there is no client. *)
Theorem X14_run_forever_shuts_down (ticks : nat) (w : world) :
  run_forever ticks w =
  (Done tt,
   advance 0
     (repeat (ESleep 1) ticks ++
      match client w with
      | Some _ => [ELoopStop; EDisconnect]
      | None => []
      end) w).
Proof.
  unfold run_forever. unfold bind at 1. rewrite sleep_ticks_run.
  simpl client. destruct (client w).
  - unfold bind, emit. now rewrite !advance_advance.
  - unfold ret. now rewrite app_nil_r.
Qed.

End Session.

(** ** Further properties on concrete messages *)


(** X2 for the drop rate one quarter, which is its own threshold. *)
Lemma X2_witness :
  (drop_threshold (demo_args (1 # 4) false) == 1 # 4)%Q.
Proof.
  apply (proj1 (proj2 (X2_drop_threshold_is_clamped_rate
                         (demo_args (1 # 4) false)))).
  split; unfold Qle; simpl; lia.
Defined.

(** X5 for the Pivot command START on the control topic of farm F1. *)
Lemma X5_witness :
  dispatch (demo_args 0 false) "farm/F1/control" pivot_start demo_world =
  handle_pivot_cmd (demo_args 0 false) pivot_start demo_world.
Proof.
  exact (proj1 (X5_dispatch_routes_matching_type (demo_args 0 false)
                  pivot_start demo_world) eq_refl).
Defined.

(** X6 for a Device command that arrives on the control topic. *)
Lemma X6_witness :
  dispatch (demo_args 0 false) "farm/F1/control" (device_reboot "SN-1")
    demo_world = (Done tt, demo_world).
Proof.
  exact (proj1 (X6_dispatch_discards_mismatch (demo_args 0 false)
                  [("type", JStr "DEVICE_CMD"); ("corr", JStr "c2");
                   ("action", JStr "reboot"); ("serial", JStr "SN-1")]
                  demo_world) eq_refl).
Defined.

(** X9 for a Device command whose action is the number 5, at drop rate 1. *)
Lemma X9_witness :
  handle_device_cmd (demo_args 1 false)
    (msg "DEVICE_CMD" [("action", JInt 5); ("serial", JStr "SN-1")])
    demo_world =
  (Raised (AttributeError "int" "upper"), demo_world).
Proof.
  exact (proj1 (X9_device_motor_type_error_precedes_drop (demo_args 1 false)
                  (msg "DEVICE_CMD"
                     [("action", JInt 5); ("serial", JStr "SN-1")])
                  demo_world eq_refl) eq_refl).
Defined.

(** X10 for a Pivot command whose run is null: dropped in silence at drop
    rate 1, raising after the wait at drop rate 0. *)
Lemma X10_witness :
  handle_pivot_cmd (demo_args 1 false)
    (msg "PIVOT_CMD" [("corr", JStr "c1"); ("run", JNull)]) demo_world =
  (Done tt, advance 1 [] demo_world) /\
  handle_pivot_cmd (demo_args 0 false)
    (msg "PIVOT_CMD" [("corr", JStr "c1"); ("run", JNull)]) demo_world =
  (Raised (AttributeError "NoneType" "lower"),
   advance 2 [one_second] demo_world).
Proof.
  split.
  - exact (X10_pivot_type_error_follows_wait (demo_args 1 false)
             [("type", JStr "PIVOT_CMD"); ("corr", JStr "c1"); ("run", JNull)]
             JNull demo_world eq_refl eq_refl).
  - exact (X10_pivot_type_error_follows_wait (demo_args 0 false)
             [("type", JStr "PIVOT_CMD"); ("corr", JStr "c1"); ("run", JNull)]
             JNull demo_world eq_refl eq_refl).
Defined.

(** X11 for the Pivot command START: handled twice, acked twice alike. *)
Lemma X11_witness :
  (run_handler (demo_args 0 false) HPivot pivot_start ;;;
   run_handler (demo_args 0 false) HPivot pivot_start) demo_world =
  (Done tt,
   advance 4
     [one_second;
      EPublish "farm/F1/ack"
        (JObj [("corr", JStr "abc123"); ("ok", JBool true);
               ("note", JStr "pivot start accepted")]) 0 false;
      one_second;
      EPublish "farm/F1/ack"
        (JObj [("corr", JStr "abc123"); ("ok", JBool true);
               ("note", JStr "pivot start accepted")]) 0 false]
     demo_world).
Proof.
  destruct (X11_replies_are_stateless (demo_args 0 false) HPivot pivot_start
              eq_refl) as (e & _ & H1 & H2).
  rewrite (H2 demo_world "device_sim_1000" eq_refl eq_refl eq_refl).
  pose proof (H1 demo_world "device_sim_1000" eq_refl eq_refl) as E.
  vm_compute in E. injection E as E. subst e. reflexivity.
Defined.

(** X12 for a Device command at drop rate 0. *)
Lemma X12_witness :
  exists e,
    (is_ack (demo_args 0 false) HDevice e
     \/ is_err (demo_args 0 false) HDevice e) /\
    run_handler (demo_args 0 false) HDevice (device_reboot "SN-1") demo_world
    = (Done tt, advance 2 [one_second; e] demo_world).
Proof.
  apply (X12_rate_zero_always_answers (demo_args 0 false) HDevice
           (device_reboot "SN-1") demo_world "device_sim_1000").
  - unfold Qle; simpl; lia.
  - unfold Qle; simpl; lia.
  - reflexivity.
  - reflexivity.
Defined.

